(** * autocnet.transformation.transformations

    A shallow embedding of [TransformationMatrix] and its two concrete
    classes, [FundamentalMatrix] and [Homography]: a 3x3 matrix that carries
    correspondences, an inlier mask, a bounded history of snapshots with a
    cursor, cached derived attributes and a set of observers.

    Python objects are mutated in place; here every method is a function
    from the object's state to an [outcome] that holds the state the object
    is left in, also when the method raises.  The collaborators that live
    outside the repository (OpenCV's estimators, NumPy's SVD and rank,
    SciPy's least squares, the camera helpers) are the fields of the record
    [externals]; every statement is made for an arbitrary such record unless
    it says otherwise.  The collaborators and the observers are taken to
    return: what an exception of theirs would leave behind is not
    described here. *)

From Stdlib Require Import String ZArith List Bool Lia Floats Reals Lra.
Import ListNotations.

Set Implicit Arguments.

(** ** Numbers

    The arrays hold float64 values.  The code is written once over the
    interface [Num], which has two instances: the kernel's binary64 floats,
    the numbers the program runs on, and the real numbers, for the
    statements that say they are about exact arithmetic.  The real numbers
    know no rounding, no infinity and no NaN, and the division of the
    Standard Library gives [x / 0 = 0]: what is proved over them says
    nothing about the NaN that the floats produce at a division by zero or
    at the mean of an empty array. *)

Class Num (A : Type) : Type := {
  num_zero : A;
  num_one : A;
  num_add : A -> A -> A;
  num_sub : A -> A -> A;
  num_mul : A -> A -> A;
  num_div : A -> A -> A;
  num_sqrt : A -> A;
  num_abs : A -> A;
  num_leb : A -> A -> bool;
  (* Python's truth value of a float: False exactly for 0.0 and -0.0 *)
  num_truthy : A -> bool;
  num_of_nat : nat -> A
}.

Declare Scope num_scope.
Delimit Scope num_scope with num.
Infix "+" := num_add : num_scope.
Infix "-" := num_sub : num_scope.
Infix "*" := num_mul : num_scope.
Infix "/" := num_div : num_scope.
Infix "<=?" := num_leb : num_scope.

#[export] Instance float_Num : Num float := {
  num_zero := 0%float;
  num_one := 1%float;
  num_add := PrimFloat.add;
  num_sub := PrimFloat.sub;
  num_mul := PrimFloat.mul;
  num_div := PrimFloat.div;
  num_sqrt := PrimFloat.sqrt;
  num_abs := PrimFloat.abs;
  num_leb := PrimFloat.leb;
  num_truthy := fun x => negb (PrimFloat.eqb x 0%float);
  num_of_nat := fun n => PrimFloat.of_uint63 (Uint63.of_Z (Z.of_nat n))
}.

#[export] Instance R_Num : Num R := {
  num_zero := 0%R;
  num_one := 1%R;
  num_add := Rplus;
  num_sub := Rminus;
  num_mul := Rmult;
  num_div := Rdiv;
  num_sqrt := R_sqrt.sqrt;
  num_abs := Rabs;
  num_leb := fun x y => if Rle_dec x y then true else false;
  num_truthy := fun x => if Req_dec_T x 0%R then false else true;
  num_of_nat := INR
}.

Section NotANumber.
Context {A : Type} {NA : Num A}.
Local Open Scope num_scope.

(** A NaN is the one float that is not below or equal to itself. *)
Definition is_nan (x : A) : bool := negb (x <=? x).

(** The NaN that NumPy stores where it is handed [None]; on binary64 it is
    what [0 / 0] gives.  (The real numbers have no NaN: there the division
    by zero of the Standard Library leaves 0.) *)
Definition num_nan : A := num_zero / num_zero.
End NotANumber.

(** ** Exceptions and outcomes *)

Inductive exn : Type :=
| ValueError
| AttributeError
| IndexError
| TypeError
| KeyError
| IndexingError.   (* pandas.core.indexing.IndexingError *)

(** NumPy and pandas raise [ValueError] for operands whose shapes or
    lengths do not fit. *)

(** What a method that mutates [self] leaves behind: the state after a
    normal return, or the exception together with the state reached when it
    was raised. *)
Inductive outcome (S : Type) : Type :=
| Return (s : S)
| Raise (e : exn) (s : S).

Definition state_of {S} (o : outcome S) : S :=
  match o with
  | Return s => s
  | Raise _ s => s
  end.

Definition returns {S} (o : outcome S) : bool :=
  match o with
  | Return _ => true
  | Raise _ _ => false
  end.

(** The result of a method that computes a value and does not touch [self]. *)
Inductive res (T : Type) : Type :=
| Val (v : T)
| Err (e : exn).

Arguments Err {T} e.

(** ** Matrices and points *)

Definition vec3 (A : Type) : Type := (A * A * A)%type.
Definition mat3 (A : Type) : Type := vec3 (vec3 A).

Section LinearAlgebra.
Context {A : Type} {NA : Num A}.
Local Open Scope num_scope.

Definition dot3 (u v : vec3 A) : A :=
  let '(u0, u1, u2) := u in
  let '(v0, v1, v2) := v in
  u0 * v0 + u1 * v1 + u2 * v2.

(** [M.dot(v)] for a 3-vector [v] *)
Definition mat_vec (M : mat3 A) (v : vec3 A) : vec3 A :=
  let '(a, b, c) := M in
  (dot3 a v, dot3 b v, dot3 c v).

(** [M.T] *)
Definition transpose (M : mat3 A) : mat3 A :=
  let '((a0, a1, a2), (b0, b1, b2), (c0, c1, c2)) := M in
  ((a0, b0, c0), (a1, b1, c1), (a2, b2, c2)).

(** [v.dot(M)] for a row vector [v] *)
Definition vec_mat (v : vec3 A) (M : mat3 A) : vec3 A :=
  mat_vec (transpose M) v.

(** [M.dot(N)] *)
Definition mat_mul (M N : mat3 A) : mat3 A :=
  let '(a, b, c) := M in
  (vec_mat a N, vec_mat b N, vec_mat c N).

(** [np.diag([d0, d1, d2])] *)
Definition diag (d0 d1 d2 : A) : mat3 A :=
  ((d0, num_zero, num_zero),
   (num_zero, d1, num_zero),
   (num_zero, num_zero, d2)).

(** Modelled from the spec: [crossform] of [autocnet.camera.utils] is not
    among the sources; the spec gives it as the skew-symmetric
    cross-product matrix of a 3-vector. *)
Definition crossform (t : vec3 A) : mat3 A :=
  let '(t0, t1, t2) := t in
  ((num_zero, num_zero - t2, t1),
   (t2, num_zero, num_zero - t0),
   (num_zero - t1, t0, num_zero)).

(** [res += a[i]] for every item of [l], from the left. *)
Fixpoint add_each (res : A) (l : list A) : A :=
  match l with
  | [] => res
  | x :: l' => add_each (res + x) l'
  end.

(** The eight accumulators of NumPy's pairwise summation. *)
Definition acc8 : Type := (A * A * A * A * A * A * A * A)%type.

(** [r[j] += a[i + j]] for every full block of eight items; what is left
    over has fewer than eight items. *)
Fixpoint add_blocks (r : acc8) (l : list A) : acc8 * list A :=
  match l with
  | a0 :: a1 :: a2 :: a3 :: a4 :: a5 :: a6 :: a7 :: l' =>
      let '(r0, r1, r2, r3, r4, r5, r6, r7) := r in
      add_blocks (r0 + a0, r1 + a1, r2 + a2, r3 + a3,
                  r4 + a4, r5 + a5, r6 + a6, r7 + a7) l'
  | _ => (r, l)
  end.

(** NumPy's [pairwise_sum], the loop behind [np.add.reduce] on floats:
    fewer than 8 items are added from the left starting at 0; up to 128
    items go through eight accumulators that are then added in pairs, the
    rest from the left; a longer array is cut in two.  [fuel] bounds the
    cuts, and the length of the list is always enough. *)
Fixpoint pairwise_sum (fuel : nat) (l : list A) : A :=
  let n := length l in
  if (n <? 8)%nat then add_each num_zero l
  else if (n <=? 128)%nat then
    match l with
    | a0 :: a1 :: a2 :: a3 :: a4 :: a5 :: a6 :: a7 :: l' =>
        let '((r0, r1, r2, r3, r4, r5, r6, r7), rest) :=
          add_blocks (a0, a1, a2, a3, a4, a5, a6, a7) l' in
        add_each (((r0 + r1) + (r2 + r3)) + ((r4 + r5) + (r6 + r7))) rest
    | _ => add_each num_zero l
    end
  else
    match fuel with
    | O => add_each num_zero l
    | S fuel' =>
        let n2 := (n / 2 - (n / 2) mod 8)%nat in
        pairwise_sum fuel' (firstn n2 l) + pairwise_sum fuel' (skipn n2 l)
    end.

(** [np.sum] of a one-dimensional array: the reduction starts from the
    identity 0 and adds the pairwise sum of the items. *)
Definition np_sum (l : list A) : A := num_zero + pairwise_sum (length l) l.

(** [np.mean] of a one-dimensional array *)
Definition np_mean (l : list A) : A := np_sum l / num_of_nat (length l).

(** The sum of a row of a frame as [DataFrame.sum] takes it: a NaN is
    skipped, that is, counted as 0. *)
Definition nansum (l : list A) : A :=
  np_sum (map (fun v => if is_nan v then num_zero else v) l).

(** The row [l * p] of the elementwise product of two [(n, 3)] frames. *)
Definition products (l p : vec3 A) : list A :=
  let '(l0, l1, l2) := l in
  let '(p0, p1, p2) := p in
  [l0 * p0; l1 * p1; l2 * p2].

(** [self[:] = None]: every cell becomes NaN. *)
Definition nan_matrix : mat3 A :=
  ((num_nan, num_nan, num_nan),
   (num_nan, num_nan, num_nan),
   (num_nan, num_nan, num_nan)).
End LinearAlgebra.

(** The sum of real numbers, which does not depend on the order in which
    [np_sum] adds. *)
Arguments np_sum {A NA} l : simpl never.

Fixpoint exact_sum (l : list R) : R :=
  match l with
  | [] => 0%R
  | x :: l' => (x + exact_sum l')%R
  end.

(** An [(n, 2)] or an [(n, 3)] array of points. *)
Inductive points (A : Type) : Type :=
| Pts2 (rows : list (A * A))
| Pts3 (rows : list (vec3 A)).

Definition n_rows {A} (p : points A) : nat :=
  match p with
  | Pts2 rows => length rows
  | Pts3 rows => length rows
  end.

(** A 3x4 camera matrix [[R | t]]: its left 3x3 block [P[:, :3]] and its
    last column [P[:, 3]]. *)
Record camera (A : Type) : Type := Camera {
  cam_block : mat3 A;
  cam_column : vec3 A
}.

(** ** The collaborators *)

Inductive fm_method : Type := FM_RANSAC | FM_LMEDS | FM_7POINT | FM_8POINT.
Inductive h_method : Type := H_RANSAC | H_LMEDS | H_NORMAL.

(** What [cv2.findFundamentalMat] hands back as [F]: one 3x3 matrix, the
    stack of the candidates of the 7-point solver (three matrices make a
    9x3 array), or [None]. *)
Inductive estimate (A : Type) : Type :=
| Single (F : mat3 A)
| Stacked (Fs : list (mat3 A))
| NoEstimate.

Arguments NoEstimate {A}.

Record externals (A : Type) : Type := Externals {
  (* cv2.findFundamentalMat(kp1, kp2, method, param1, param2) *)
  findFundamentalMat :
    points A -> points A -> fm_method -> A -> A -> estimate A * option (list bool);
  (* cv2.findHomography(kp1, kp2, method, reproj_threshold) *)
  findHomography :
    points A -> points A -> h_method -> A -> option (mat3 A) * option (list bool);
  (* np.linalg.svd(M): u, the singular values in descending order, vt *)
  svd : mat3 A -> mat3 A * vec3 A * mat3 A;
  (* np.linalg.matrix_rank(M) *)
  matrix_rank : mat3 A -> nat;
  (* autocnet.utils.utils.normalize_vector *)
  normalize_vector : list (vec3 A) -> list (vec3 A);
  (* autocnet.camera.camera.estimated_camera_from_f(F); F is None when the
     estimator returned no matrix *)
  estimated_camera_from_f : option (mat3 A) -> camera A;
  (* autocnet.camera.camera.idealized_camera *)
  idealized_camera : camera A;
  (* optimize.least_squares(camera.projection_error, p1.ravel(),
       args=(p, pt, pt1), method='lm').x.reshape(3, 4) *)
  least_squares_camera :
    camera A -> camera A -> points A -> points A -> camera A
}.

(** The collaborators [E] with an estimator that answers [(F, m)] to every
    call of [cv2.findFundamentalMat]. *)
Definition with_fundamental_estimate {A} (E : externals A)
    (F : estimate A) (m : option (list bool)) : externals A :=
  {| findFundamentalMat := fun _ _ _ _ _ => (F, m);
     findHomography := findHomography E;
     svd := svd E;
     matrix_rank := matrix_rank E;
     normalize_vector := normalize_vector E;
     estimated_camera_from_f := estimated_camera_from_f E;
     idealized_camera := idealized_camera E;
     least_squares_camera := least_squares_camera E |}.

(** ** The object

    [pd.Series] and boolean arrays are lists of booleans in index order, and
    [None] is [None].  The observers are opaque callables: an observer is
    known by a number, and a call of it is an entry of the log [notified]
    (it is taken to leave the matrix alone and not to raise).  Issued
    warnings are logged in [warned]. *)

Inductive klass : Type := FundamentalMatrix | Homography.

Inductive warning : Type :=
| SevenPointFallback   (* 'F computation fell back to 7-point algorithm ...' *)
| NotEnoughCorrespondences.   (* 'Unable to apply MLE.  Not enough correspondences.' *)

(** The dict [{'arr': ..., 'mask': ...}] pushed on the action stack. *)
Record state_package (A : Type) : Type := StatePackage {
  arr : mat3 A;
  pkg_mask : option (list bool)
}.

Record TransformationMatrix (A : Type) : Type := Object {
  cls : klass;
  self_arr : mat3 A;                      (* the array contents, self[:] *)
  index : list nat;
  mask : option (list bool);
  _action_stack : list (state_package A); (* deque(maxlen=10) *)
  _current_action_stack : Z;
  _observers : list nat;
  x1 : option (points A);
  x2 : option (points A);
  _condition : option A;                  (* None: the attribute is not set *)
  notified : list nat;
  warned : list warning
}.

Section Setters.
Context {A : Type}.
Local Abbreviation obj := (TransformationMatrix A).

Definition set_arr (s : obj) (M : mat3 A) : obj :=
  Object (cls s) M (index s) (mask s) (_action_stack s)
    (_current_action_stack s) (_observers s) (x1 s) (x2 s) (_condition s)
    (notified s) (warned s).

Definition set_mask (s : obj) (m : option (list bool)) : obj :=
  Object (cls s) (self_arr s) (index s) m (_action_stack s)
    (_current_action_stack s) (_observers s) (x1 s) (x2 s) (_condition s)
    (notified s) (warned s).

Definition set_action_stack (s : obj) (d : list (state_package A)) : obj :=
  Object (cls s) (self_arr s) (index s) (mask s) d
    (_current_action_stack s) (_observers s) (x1 s) (x2 s) (_condition s)
    (notified s) (warned s).

Definition set_current_action_stack (s : obj) (i : Z) : obj :=
  Object (cls s) (self_arr s) (index s) (mask s) (_action_stack s)
    i (_observers s) (x1 s) (x2 s) (_condition s)
    (notified s) (warned s).

Definition set_observers (s : obj) (o : list nat) : obj :=
  Object (cls s) (self_arr s) (index s) (mask s) (_action_stack s)
    (_current_action_stack s) o (x1 s) (x2 s) (_condition s)
    (notified s) (warned s).

Definition set_x1 (s : obj) (p : option (points A)) : obj :=
  Object (cls s) (self_arr s) (index s) (mask s) (_action_stack s)
    (_current_action_stack s) (_observers s) p (x2 s) (_condition s)
    (notified s) (warned s).

Definition set_x2 (s : obj) (p : option (points A)) : obj :=
  Object (cls s) (self_arr s) (index s) (mask s) (_action_stack s)
    (_current_action_stack s) (_observers s) (x1 s) p (_condition s)
    (notified s) (warned s).

Definition set_condition (s : obj) (c : option A) : obj :=
  Object (cls s) (self_arr s) (index s) (mask s) (_action_stack s)
    (_current_action_stack s) (_observers s) (x1 s) (x2 s) c
    (notified s) (warned s).

Definition set_notified (s : obj) (l : list nat) : obj :=
  Object (cls s) (self_arr s) (index s) (mask s) (_action_stack s)
    (_current_action_stack s) (_observers s) (x1 s) (x2 s) (_condition s)
    l (warned s).

Definition warn (s : obj) (w : warning) : obj :=
  Object (cls s) (self_arr s) (index s) (mask s) (_action_stack s)
    (_current_action_stack s) (_observers s) (x1 s) (x2 s) (_condition s)
    (notified s) (warned s ++ [w]).
End Setters.

(** ** [collections.deque(maxlen=10)] and Python indexing *)

Definition maxlen : nat := 10.

(** [d.append(x)]: when the deque is full the leftmost item is discarded. *)
Definition deque_append {T} (d : list T) (x : T) : list T :=
  if (length d <? maxlen)%nat then d ++ [x] else tl (d ++ [x]).

(** [d[i]]: a negative index counts from the right; [None] stands for
    [IndexError]. *)
Definition py_index {T} (d : list T) (i : Z) : option T :=
  let n := Z.of_nat (length d) in
  if ((0 <=? i) && (i <? n))%Z then nth_error d (Z.to_nat i)
  else if ((- n <=? i) && (i <? 0))%Z then nth_error d (Z.to_nat (n + i))
  else None.

(** Rows of a frame kept by a boolean mask. *)
Fixpoint select {T} (m : list bool) (rows : list T) : list T :=
  match m, rows with
  | b :: m', r :: rows' => if b then r :: select m' rows' else select m' rows'
  | _, _ => []
  end.

Definition select_points {A} (m : list bool) (p : points A) : points A :=
  match p with
  | Pts2 rows => Pts2 (select m rows)
  | Pts3 rows => Pts3 (select m rows)
  end.

(** [p[m]] for a frame [p] and a boolean Series [m] that carry their labels
    in the order of the index: pandas aligns the Series with the frame, so
    every row of the frame needs an entry of the Series (it raises its
    [IndexingError] otherwise), and entries beyond the last row are
    dropped. *)
Definition mask_rows {A} (m : list bool) (p : points A) : res (points A) :=
  if (n_rows p <=? length m)%nat then Val (select_points m p)
  else Err IndexingError.

(** NumPy's broadcasting of the rows of an array against an array of [n]
    rows: the same number of rows, or one row that is repeated; [None]
    stands for the [ValueError] of shapes that do not fit. *)
Definition broadcast_rows {T} (rows : list T) (n : nat) : option (list T) :=
  if (length rows =? n)%nat then Some rows
  else
    match rows with
    | [r] => Some (repeat r n)
    | _ => None
    end.

(** ** TransformationMatrix *)

Section Base.
Context {A : Type} {NA : Num A}.
Variable E : externals A.
Local Abbreviation obj := (TransformationMatrix A).
Local Open Scope Z_scope.

(** [__new__]: the mask is all true over the index, and the first state
    package holds a copy of the array and the mask [None]. *)
Definition new (c : klass) (ndarray : mat3 A) (idx : list nat) : obj :=
  Object c ndarray idx (Some (repeat true (length idx)))
    (deque_append [] (StatePackage ndarray None)) 0 [] None None None [] [].

Definition subscribe (s : obj) (func : nat) : obj :=
  if existsb (Nat.eqb func) (_observers s) then s
  else set_observers s (_observers s ++ [func]).

Definition _notify_subscribers (s : obj) : obj :=
  set_notified s (notified s ++ _observers s).

(** [FundamentalMatrix._clean_attrs]; of the three attributes it deletes,
    [_error] and [_determinant] are never set by this file. *)
Definition _clean_attrs (s : obj) : obj := set_condition s None.

(** [self._clean_attrs()] as [rollback] and [rollforward] call it: the
    method exists on [FundamentalMatrix] only. *)
Definition call_clean_attrs (s : obj) : outcome obj :=
  match cls s with
  | FundamentalMatrix => Return (_clean_attrs s)
  | Homography => Raise AttributeError s
  end.

(** The common tail of [rollback] and [rollforward], from the assignment
    of the cursor on. *)
Definition restore (s : obj) (idx : Z) : outcome obj :=
  let s := set_current_action_stack s idx in
  match py_index (_action_stack s) idx with
  | None => Raise IndexError s
  | Some state =>
      let s := set_arr s (arr state) in
      let s := set_mask s (pkg_mask state) in
      match call_clean_attrs s with
      | Return s => Return (_notify_subscribers s)
      | Raise e s => Raise e s
      end
  end.

Definition rollback (s : obj) (n : Z) : outcome obj :=
  let idx := _current_action_stack s - n in
  let idx := if idx <? 0 then 0 else idx in
  restore s idx.

Definition rollforward (s : obj) (n : Z) : outcome obj :=
  let idx := _current_action_stack s + n in
  let last := Z.of_nat (length (_action_stack s)) - 1 in
  let idx := if idx >? last then last else idx in
  restore s idx.

(** The property [condition]: the value read and the state left. *)
Definition condition (s : obj) : A * obj :=
  let compute_it :=
    let '(_, (s0, s1, _), _) := svd E (self_arr s) in
    let c := (s0 / s1)%num in
    (c, set_condition s (Some c)) in
  match _condition s with
  | Some c => if num_truthy c then (c, s) else compute_it
  | None => compute_it
  end.

Definition rank (s : obj) : nat := matrix_rank E (self_arr s).
End Base.

(** ** FundamentalMatrix *)

Module FundamentalMatrix.
Section Methods.
Context {A : Type} {NA : Num A}.
Variable E : externals A.
Local Abbreviation obj := (TransformationMatrix A).

(** [compute_error(x, x1)]: the distance of every point of [x1] to the
    epipolar line of its match in [x].  The lines [l_norms] are an array and
    [x1] is a frame: their product wants as many lines as [x1] has rows, or
    one line for all of them, and the sum along a row of the product skips
    a NaN. *)
Definition compute_error (s : obj) (x x1 : option (points A)) : res (list A) :=
  match x with
  | None => Err AttributeError
  | Some (Pts2 _) => Err ValueError
  | Some (Pts3 x) =>
      let l_norms :=
        normalize_vector E (map (fun r => vec_mat r (transpose (self_arr s))) x) in
      match x1 with
      | None => Err TypeError
      | Some (Pts2 _) => Err ValueError
      | Some (Pts3 x1) =>
          match broadcast_rows l_norms (length x1) with
          | Some l_norms =>
              Val (map (fun '(l, p) => num_abs (nansum (products l p)))
                       (combine l_norms x1))
          | None => Err ValueError
          end
      end
  end.

(** The property [error]: the error over the unmasked correspondences.
    The frames [x1], [x2] and the mask of an object are built over its one
    index (by [compute], by [refine_matches] and in the history), so the
    mask has an entry for every row, and [select] pairs them in order. *)
Definition error (s : obj) : res (list A) :=
  match x1 s with
  | None => Err TypeError
  | Some x =>
      match mask s with
      | None => Err KeyError
      | Some m =>
          match x2 s with
          | None => Err TypeError
          | Some x' =>
              compute_error s (Some (select_points m x)) (Some (select_points m x'))
          end
      end
  end.

Definition refine_matches (s : obj) (threshold : A) : outcome obj :=
  match mask s with
  | None => Raise AttributeError s
  | Some m =>
      let state_package := StatePackage (self_arr s) (Some m) in
      match compute_error s (x1 s) (x2 s) with
      | Err e => Raise e s
      | Val error =>
          let s := set_mask s (Some (map (fun e => (e <=? threshold)%num) error)) in
          let s := set_action_stack s (deque_append (_action_stack s) state_package) in
          let s := set_current_action_stack s
                     (Z.of_nat (length (_action_stack s)) - 1)%Z in
          let s := _clean_attrs s in
          Return (_notify_subscribers s)
      end
  end.

Definition _enforce_singularity_constraint (s : obj) : obj :=
  if (rank E s =? 2)%nat then s
  else
    let '(u, (d0, d1, _), vt) := svd E (self_arr s) in
    let f1 := mat_mul (mat_mul u (diag d0 d1 num_zero)) vt in
    set_arr s f1.

(** The [if]/[elif] chain that maps the method string to OpenCV's flag. *)
Definition method_flag (method : string) : option fm_method :=
  if (method =? "mle")%string then Some FM_RANSAC
  else if (method =? "ransac")%string then Some FM_RANSAC
  else if (method =? "lmeds")%string then Some FM_LMEDS
  else if (method =? "normal")%string then Some FM_7POINT
  else if (method =? "8point")%string then Some FM_8POINT
  else None.

(** The gold-standard refinement at the end of [compute]. *)
Definition mle (s : obj) (F : option (mat3 A)) (kp1 kp2 : points A)
    (m : list bool) : outcome obj :=
  let p1 := estimated_camera_from_f E F in
  let p := idealized_camera E in
  let pt := select_points m kp1 in
  let pt1 := select_points m kp2 in
  if (n_rows pt <? 9)%nat || (n_rows pt1 <? 9)%nat
  then Return (warn s NotEnoughCorrespondences)
  else
    let gold_standard_p := least_squares_camera E p1 p pt pt1 in
    let gold_standard_f :=
      mat_mul (crossform (cam_column gold_standard_p)) (cam_block gold_standard_p) in
    Return (set_arr s gold_standard_f).

(** What [self[:] = F] stores: a 3x3 array as it is and [None] as NaN in
    every cell; a stack of another shape does not fit, and [None] stands
    for the exception. *)
Definition assigned (F : estimate A) : option (mat3 A) :=
  match F with
  | Single M => Some M
  | Stacked [M] => Some M
  | Stacked _ => None
  | NoEstimate => Some nan_matrix
  end.

(** [F] as it is handed on to [camera.estimated_camera_from_f] once it
    has been stored: the 3x3 array, or [None]. *)
Definition passed (F : estimate A) : option (mat3 A) :=
  match F with
  | NoEstimate => None
  | _ => assigned F
  end.

Definition compute (s : obj) (kp1 kp2 : points A) (method : string)
    (reproj_threshold confidence : A) : outcome obj :=
  match method_flag method with
  | None => Raise ValueError s
  | Some method_ =>
      let '(F, mask) :=
        findFundamentalMat E kp1 kp2 method_ reproj_threshold confidence in
      match mask with
      | None => Return s
      | Some mask =>
          let s := _enforce_singularity_constraint s in
          (* pd.DataFrame(kp, index=self.index), pd.Series(mask, index=self.index) *)
          if negb (n_rows kp1 =? length (index s))%nat then Raise ValueError s else
          let s := set_x1 s (Some kp1) in
          if negb (n_rows kp2 =? length (index s))%nat then Raise ValueError s else
          let s := set_x2 s (Some kp2) in
          if negb (length mask =? length (index s))%nat then Raise ValueError s else
          let s := set_mask s (Some mask) in
          match assigned F with
          | Some M =>
              let s := set_arr s M in
              if (method =? "mle")%string then mle s (passed F) kp1 kp2 mask
              else Return s
          | None => Return (warn s SevenPointFallback)
          end
      end
  end.
End Methods.
End FundamentalMatrix.

(** ** Homography *)

(** The table [compute_error] returns: a row per point with the x residual,
    the y residual, the rmse and the error contribution, and the three
    aggregates set on it as attributes. *)
Record error_frame (A : Type) : Type := ErrorFrame {
  frame_rows : list (A * A * A * A);
  frame_index : list nat;
  total_rms : A;
  x_rms : A;
  y_rms : A
}.

Module Homography.
Section Methods.
Context {A : Type} {NA : Num A}.
Variable E : externals A.
Local Abbreviation obj := (TransformationMatrix A).
Local Open Scope num_scope.

(** Modelled from the spec: [make_homogeneous] of [autocnet.utils.utils] is
    not among the sources; the spec gives it as appending a 1 to every
    point. *)
Definition make_homogeneous (rows : list (A * A)) : list (vec3 A) :=
  map (fun '(x, y) => (x, y, num_one)) rows.

(** [a.shape[1] == 2] decides whether [a] is made homogeneous. *)
Definition homogeneous (p : points A) : list (vec3 A) :=
  match p with
  | Pts2 rows => make_homogeneous rows
  | Pts3 rows => rows
  end.

(** One turn of the loop: [a[i] = self.dot(j); a[i] /= a[i][-1]]. *)
Definition reproject (H : mat3 A) (j : vec3 A) : vec3 A :=
  let '(x, y, w) := mat_vec H j in
  (x / w, y / w, w / w).

Definition square (x : A) : A := x * x.

(** [compute_error] from the loop on: [a] and [b] are the arrays of the
    rows the mask kept, made homogeneous.  [data] has a row for every row
    of [a]; [b] is broadcast against it. *)
Definition error_table (s : obj) (a b : list (vec3 A)) : res (error_frame A) :=
  let a := map (reproject (self_arr s)) a in
  match broadcast_rows b (length a) with
  | None => Err ValueError
  | Some b =>
      let x_res := map (fun '((bx, _, _), (ax, _, _)) => bx - ax) (combine b a) in
      let y_res := map (fun '((_, by_, _), (_, ay, _)) => by_ - ay) (combine b a) in
      let sq := map (fun '(x, y) => square x + square y) (combine x_res y_res) in
      let rms := map num_sqrt sq in
      let total_rms := num_sqrt (np_mean sq) in
      let x_rms := num_sqrt (np_mean (map square x_res)) in
      let y_rms := num_sqrt (np_mean (map square y_res)) in
      let contribution := map (fun r => r / total_rms) rms in
      let data :=
        map (fun '(x, y, r, c) => (x, y, r, c))
            (combine (combine (combine x_res y_res) rms) contribution) in
      (* pd.DataFrame(data, ..., index=self.index) *)
      if (length data =? length (index s))%nat
      then Val (ErrorFrame data (index s) total_rms x_rms y_rms)
      else Err ValueError
  end.

(** The mask is a boolean Series, as the default is.  ([a] and [b] are
    frames: an array has no [.values].) *)
Definition compute_error (s : obj) (a b : option (points A))
    (mask : option (list bool)) : res (error_frame A) :=
  let mask :=
    match mask with
    | Some m => m
    | None => repeat true (length (index s))
    end in
  match a with
  | None => Err TypeError
  | Some a =>
      match mask_rows mask a with
      | Err e => Err e
      | Val a =>
          match b with
          | None => Err TypeError
          | Some b =>
              match mask_rows mask b with
              | Err e => Err e
              | Val b => error_table s (homogeneous a) (homogeneous b)
              end
          end
      end
  end.

Definition error (s : obj) : res (error_frame A) :=
  compute_error s (x1 s) (x2 s) None.

Definition method_flag (method : string) : option h_method :=
  if (method =? "ransac")%string then Some H_RANSAC
  else if (method =? "lmeds")%string then Some H_LMEDS
  else if (method =? "normal")%string then Some H_NORMAL
  else None.

Definition compute (s : obj) (kp1 kp2 : points A) (method : string)
    (reproj_threshold : A) : outcome obj :=
  let s := set_x1 s (Some kp1) in
  let s := set_x2 s (Some kp2) in
  match method_flag method with
  | None => Raise ValueError s
  | Some method_ =>
      let '(transformation_matrix, mask) :=
        findHomography E kp1 kp2 method_ reproj_threshold in
      let s := set_mask s mask in
      (* self[:] = transformation_matrix: None is stored as NaN *)
      match transformation_matrix with
      | None => Return (set_arr s nan_matrix)
      | Some H => Return (set_arr s H)
      end
  end.
End Methods.
End Homography.

(** ** Calls on an object

    A call is resolved on the class of the object, as Python resolves a
    method: [refine_matches] exists on [FundamentalMatrix] only, and each
    class has its own [compute]. *)

Inductive call (A : Type) : Type :=
| Compute (kp1 kp2 : points A) (method : string) (reproj_threshold confidence : A)
| RefineMatches (threshold : A)
| Rollback (n : Z)
| Rollforward (n : Z)
| Subscribe (func : nat)
| ReadCondition.

Arguments ReadCondition {A}.
Arguments Rollback {A} n.
Arguments Rollforward {A} n.
Arguments Subscribe {A} func.

Section Calls.
Context {A : Type} {NA : Num A}.
Variable E : externals A.
Local Abbreviation obj := (TransformationMatrix A).

Definition invoke (s : obj) (c : call A) : outcome obj :=
  match c with
  | Compute kp1 kp2 method reproj_threshold confidence =>
      match cls s with
      | FundamentalMatrix =>
          FundamentalMatrix.compute E s kp1 kp2 method reproj_threshold confidence
      | Homography => Homography.compute E s kp1 kp2 method reproj_threshold
      end
  | RefineMatches threshold =>
      match cls s with
      | FundamentalMatrix => FundamentalMatrix.refine_matches E s threshold
      | Homography => Raise AttributeError s
      end
  | Rollback n => rollback s n
  | Rollforward n => rollforward s n
  | Subscribe func => Return (subscribe s func)
  | ReadCondition => Return (snd (condition E s))
  end.

(** A caller that goes on with the object after every call, also after one
    that raised. *)
Fixpoint run (s : obj) (cs : list (call A)) : obj :=
  match cs with
  | [] => s
  | c :: cs' => run (state_of (invoke s c)) cs'
  end.

(** The state packages that the calls of [cs] append, oldest first. *)
Fixpoint appended (s : obj) (cs : list (call A)) : list (state_package A) :=
  match cs with
  | [] => []
  | c :: cs' =>
      let o := invoke s c in
      match c, o with
      | RefineMatches _, Return _ =>
          StatePackage (self_arr s) (mask s) :: appended (state_of o) cs'
      | _, _ => appended (state_of o) cs'
      end
  end.

(** The step counts of [rollback] and [rollforward] are counts: [n] is "the
    number of steps to roll" of the docstrings, so it is not negative. *)
Definition steps_ok (c : call A) : bool :=
  match c with
  | Rollback n => (0 <=? n)%Z
  | Rollforward n => (0 <=? n)%Z
  | _ => true
  end.

(** The invariant of the history: between 1 and [maxlen] entries, and the
    cursor on one of them. *)
Definition history_ok (s : obj) : bool :=
  let len := length (_action_stack s) in
  (1 <=? len)%nat && (len <=? maxlen)%nat
  && (0 <=? _current_action_stack s)%Z
  && (_current_action_stack s <=? Z.of_nat len - 1)%Z.

(** The last [k] items of a list. *)
Definition lastn {T} (k : nat) (l : list T) : list T :=
  skipn (length l - k) l.
End Calls.

(** ** Collaborators to run examples with

    An instance of [externals] over the floats: the estimators return a
    fixed answer, the lines are normalised row by row, and the SVD and the
    rank are those of a diagonal
    matrix with a non-negative, descending diagonal (for which they are
    exact).  It only serves to evaluate the methods on concrete objects. *)

Module Demo.
Local Open Scope float_scope.

(** Modelled from the spec: [normalize_vector] of [autocnet.utils.utils] is
    not among the sources; the spec gives it as the division of a line by
    the Euclidean norm of its first two coefficients.  (What it does with a
    norm of zero the spec does not say; no line of the examples has one.) *)
Definition normalize_row (l : vec3 float) : vec3 float :=
  let '(a, b, c) := l in
  let n := PrimFloat.sqrt (a * a + b * b) in
  (a / n, b / n, c / n).

Definition diagonal_svd (M : mat3 float) : mat3 float * vec3 float * mat3 float :=
  let '((d0, _, _), (_, d1, _), (_, _, d2)) := M in
  (diag 1 1 1, (d0, d1, d2), diag 1 1 1).

Definition diagonal_rank (M : mat3 float) : nat :=
  let '((d0, _, _), (_, d1, _), (_, _, d2)) := M in
  length (filter (fun d => negb (d =? 0)) [d0; d1; d2]).

Definition externals_returning (F : estimate float) (H : option (mat3 float))
    (m : option (list bool)) : externals float :=
  {| findFundamentalMat := fun _ _ _ _ _ => (F, m);
     findHomography := fun _ _ _ _ => (H, m);
     svd := diagonal_svd;
     matrix_rank := diagonal_rank;
     normalize_vector := map normalize_row;
     estimated_camera_from_f :=
       fun F => Camera (match F with Some M => M | None => diag 0 0 0 end) (0, 0, 0);
     idealized_camera := Camera (diag 1 1 1) (0, 0, 0);
     least_squares_camera := fun p1 _ _ _ => p1 |}.

Definition zeros : mat3 float := diag 0 0 0.
Definition eye : mat3 float := diag 1 1 1.

(** The fundamental matrix of a sideways translation: the epipolar line of
    [(x, y, 1)] is the horizontal line through it, and the error of a match
    is the difference of the two heights. *)
Definition F_sideways : mat3 float := crossform (1, 0, 0).

Definition index8 : list nat := seq 0 8.

Definition kp1 : points float :=
  Pts3 [(0, 0, 1); (1, 0, 1); (2, 1, 1); (3, 1, 1);
        (4, 2, 1); (5, 2, 1); (6, 3, 1); (7, 3, 1)].

(** The matches of [kp1]; the last two are off their lines by 3 and by 5. *)
Definition kp2 : points float :=
  Pts3 [(1, 0, 1); (2, 0, 1); (3, 1, 1); (4, 1, 1);
        (5, 2, 1); (6, 2, 1); (7, 6, 1); (8, 8, 1)].

Definition all8 : list bool := repeat true 8.

(** The default [confidence], 0.99, as the binary64 value it denotes. *)
Definition confidence : float := 0x1.fae147ae147aep-1.

Definition E_sideways : externals float :=
  externals_returning (Single F_sideways) None (Some all8).

(** A fundamental matrix made from zeros, estimated, then refined with the
    threshold 1. *)
Definition estimated : TransformationMatrix float :=
  run E_sideways (new FundamentalMatrix zeros index8) [Compute kp1 kp2 "ransac" 2 confidence].

Definition refined : TransformationMatrix float :=
  run E_sideways estimated [RefineMatches 1].
End Demo.

(** ** The determinant

    The property [determinant] is [np.linalg.det(self)]; for a 3x3 array
    that is the expansion along the first row. *)

Section Determinant.
Context {A : Type} {NA : Num A}.
Local Open Scope num_scope.

Definition det3 (M : mat3 A) : A :=
  let '((a, b, c), (d, e, f), (g, h, i)) := M in
  a * (e * i - f * h) - b * (d * i - f * g) + c * (d * h - e * g).

Definition determinant (s : TransformationMatrix A) : A := det3 (self_arr s).
End Determinant.

(** * Properties *)

(** Splits a goal about [FundamentalMatrix.compute] into the paths through
    the method: the method flag, the answer of the estimator, the branch of
    the enforcement, the three shape checks, the kind of estimate and the
    refinement. *)
Ltac fm_compute_paths E :=
  unfold FundamentalMatrix.compute, FundamentalMatrix.mle,
    FundamentalMatrix._enforce_singularity_constraint, rank;
  repeat match goal with
  | |- context [FundamentalMatrix.method_flag ?m] =>
      destruct (FundamentalMatrix.method_flag m); simpl
  | |- context [findFundamentalMat E ?a ?b ?f ?t ?c] =>
      destruct (findFundamentalMat E a b f t c) as [? [? | ]]; simpl
  | |- context [svd E ?M] =>
      destruct (svd E M) as [[? [[? ?] ?]] ?]; simpl
  | |- context [if ?b then _ else _] => destruct b; simpl
  | |- context [FundamentalMatrix.assigned ?F] =>
      destruct F as [? | [ | ? [ | ? ?]] | ]; simpl
  end.

(** Splits a goal [Homography.compute_error s a b m = Val df -> _] into the
    paths on which the method returns: both frames are given, the mask
    covers their rows, [b] fits [a] and the table fits the index. *)
Ltac h_error_paths :=
  unfold Homography.compute_error, Homography.error_table, mask_rows;
  repeat match goal with
  | |- context [match ?a with Some _ => _ | None => _ end] =>
      is_var a; destruct a as [? | ]; try discriminate
  | |- context [if ?c then _ else _] => destruct c eqn:?; try discriminate
  | |- context [broadcast_rows ?b ?n] =>
      destruct (broadcast_rows b n) as [? | ] eqn:?; try discriminate
  end.

(** ** The deque and the cursor *)

Lemma lastn_all {T} (k : nat) (l : list T) :
  (length l <= k)%nat -> lastn k l = l.
Proof.
  intros Hle. unfold lastn.
  replace (length l - k)%nat with 0%nat by lia. reflexivity.
Qed.

Lemma lastn_length {T} (k : nat) (l : list T) :
  length (lastn k l) = Nat.min k (length l).
Proof. unfold lastn. rewrite length_skipn. lia. Qed.

Lemma lastn_app_lastn {T} (k : nat) (l r : list T) :
  lastn k (lastn k l ++ r) = lastn k (l ++ r).
Proof.
  destruct (Nat.le_gt_cases (length l) k) as [Hle | Hgt].
  - now rewrite (lastn_all l Hle).
  - unfold lastn at 1 3.
    rewrite !length_app, lastn_length.
    replace (Nat.min k (length l)) with k by lia.
    replace (k + length r - k)%nat with (length r) by lia.
    replace (length l + length r - k)%nat
      with ((length l - k) + length r)%nat by lia.
    rewrite Nat.add_comm, <- skipn_skipn.
    f_equal. rewrite skipn_app.
    replace (length l - k - length l)%nat with 0%nat by lia.
    reflexivity.
Qed.

Lemma deque_append_lastn {T} (d : list T) (x : T) :
  (length d <= maxlen)%nat -> deque_append d x = lastn maxlen (d ++ [x]).
Proof.
  intros Hle. unfold deque_append.
  destruct (Nat.ltb_spec (length d) maxlen) as [Hlt | Hge].
  - symmetry. apply lastn_all. rewrite length_app. simpl. lia.
  - unfold lastn. rewrite length_app. simpl.
    replace (length d + 1 - maxlen)%nat with 1%nat by lia.
    reflexivity.
Qed.

Lemma deque_append_length {T} (d : list T) (x : T) :
  (length d <= maxlen)%nat ->
  length (deque_append d x) = Nat.min maxlen (length d + 1).
Proof.
  intros Hle. rewrite deque_append_lastn by exact Hle.
  rewrite lastn_length, length_app. reflexivity.
Qed.

Lemma py_index_in_range {T} (d : list T) (i : Z) :
  (0 <= i < Z.of_nat (length d))%Z ->
  exists x, py_index d i = Some x /\ nth_error d (Z.to_nat i) = Some x.
Proof.
  intros Hi. unfold py_index.
  destruct (Z.leb_spec 0 i); [ | lia ].
  destruct (Z.ltb_spec i (Z.of_nat (length d))); [ | lia ].
  simpl.
  destruct (nth_error d (Z.to_nat i)) as [x | ] eqn:Hx.
  - now exists x.
  - apply nth_error_None in Hx. lia.
Qed.

Lemma history_ok_spec {A} (s : TransformationMatrix A) :
  history_ok s = true <->
  (1 <= length (_action_stack s) <= maxlen)%nat /\
  (0 <= _current_action_stack s <= Z.of_nat (length (_action_stack s)) - 1)%Z.
Proof.
  unfold history_ok. rewrite !andb_true_iff.
  rewrite !Nat.leb_le, !Z.leb_le. tauto.
Qed.

(** The item just appended is the last one. *)
Lemma deque_append_last {T} (d : list T) (x : T) :
  py_index (deque_append d x)
    (Z.of_nat (length (deque_append d x)) - 1) = Some x.
Proof.
  assert (H : exists d', deque_append d x = d' ++ [x]).
  { unfold deque_append. destruct (length d <? maxlen)%nat eqn:Hlt.
    - now exists d.
    - destruct d as [ | a d']; [ discriminate | ]. now exists d'. }
  destruct H as [d' ->].
  destruct (@py_index_in_range _ (d' ++ [x]) (Z.of_nat (length (d' ++ [x])) - 1))
    as [y [Hy Hn]].
  - rewrite length_app. simpl. lia.
  - rewrite Hy. f_equal.
    rewrite length_app in Hn. simpl in Hn.
    replace (Z.to_nat (Z.of_nat (length d' + 1) - 1)) with (length d') in Hn by lia.
    rewrite nth_error_app2, Nat.sub_diag in Hn by lia.
    simpl in Hn. congruence.
Qed.

(** ** Broadcasting *)

Lemma broadcast_rows_length {T} (rows l : list T) (n : nat) :
  broadcast_rows rows n = Some l -> length l = n.
Proof.
  unfold broadcast_rows.
  destruct (Nat.eqb_spec (length rows) n) as [Hn | _].
  - now intros [= <-].
  - destruct rows as [ | r [ | r' rows]]; try discriminate.
    intros [= <-]. apply repeat_length.
Qed.

Lemma broadcast_rows_same {T} (rows : list T) :
  broadcast_rows rows (length rows) = Some rows.
Proof. unfold broadcast_rows. now rewrite Nat.eqb_refl. Qed.

(** ** What a call does to the history *)

Section CallEffects.
Context {A : Type} {NA : Num A}.
Variable E : externals A.
Local Abbreviation obj := (TransformationMatrix A).

Lemma restore_action_stack (s : obj) (idx : Z) :
  _action_stack (state_of (restore s idx)) = _action_stack s.
Proof.
  unfold restore, call_clean_attrs. simpl.
  destruct (py_index (_action_stack s) idx); simpl; [ | reflexivity ].
  destruct (cls s); reflexivity.
Qed.

Lemma restore_cursor (s : obj) (idx : Z) :
  _current_action_stack (state_of (restore s idx)) = idx.
Proof.
  unfold restore, call_clean_attrs. simpl.
  destruct (py_index (_action_stack s) idx); simpl; [ | reflexivity ].
  destruct (cls s); reflexivity.
Qed.

Lemma fm_compute_history (s : obj) kp1 kp2 method t c :
  let s' := state_of (FundamentalMatrix.compute E s kp1 kp2 method t c) in
  _action_stack s' = _action_stack s /\
  _current_action_stack s' = _current_action_stack s.
Proof. fm_compute_paths E; tauto. Qed.

Lemma h_compute_history (s : obj) kp1 kp2 method t :
  let s' := state_of (Homography.compute E s kp1 kp2 method t) in
  _action_stack s' = _action_stack s /\
  _current_action_stack s' = _current_action_stack s.
Proof.
  unfold Homography.compute.
  destruct (Homography.method_flag method); simpl; [ | tauto ].
  destruct (findHomography E _ _ _ t) as [[H | ] m]; simpl; tauto.
Qed.

Lemma refine_matches_returns (s s' : obj) (threshold : A) :
  FundamentalMatrix.refine_matches E s threshold = Return s' ->
  _action_stack s' =
    deque_append (_action_stack s) (StatePackage (self_arr s) (mask s)) /\
  _current_action_stack s' = (Z.of_nat (length (_action_stack s')) - 1)%Z.
Proof.
  unfold FundamentalMatrix.refine_matches.
  destruct (mask s) as [m | ]; [ | discriminate ].
  destruct (FundamentalMatrix.compute_error E s (x1 s) (x2 s)); [ | discriminate ].
  intros [= <-]. simpl. split; reflexivity.
Qed.

Lemma refine_matches_raises (s s' : obj) (threshold : A) (e : exn) :
  FundamentalMatrix.refine_matches E s threshold = Raise e s' -> s' = s.
Proof.
  unfold FundamentalMatrix.refine_matches.
  destruct (mask s) as [m | ]; [ | now intros [= _ <-] ].
  destruct (FundamentalMatrix.compute_error E s (x1 s) (x2 s));
    [ discriminate | now intros [= _ <-] ].
Qed.

Lemma condition_history (s : obj) :
  let s' := snd (condition E s) in
  _action_stack s' = _action_stack s /\
  _current_action_stack s' = _current_action_stack s.
Proof.
  unfold condition.
  destruct (svd E (self_arr s)) as [[u [[d0 d1] d2]] vt].
  destruct (_condition s) as [c | ]; [ destruct (num_truthy c) | ]; simpl; tauto.
Qed.

Lemma subscribe_history (s : obj) (func : nat) :
  let s' := subscribe s func in
  _action_stack s' = _action_stack s /\
  _current_action_stack s' = _current_action_stack s.
Proof.
  unfold subscribe. destruct (existsb _ _); simpl; tauto.
Qed.

(** The action stack after a call: a returning [refine_matches] appends the
    package of the state it started from, and nothing else touches it. *)
Lemma invoke_action_stack (s : obj) (c : call A) :
  _action_stack (state_of (invoke E s c)) =
  match c, invoke E s c with
  | RefineMatches _, Return _ =>
      deque_append (_action_stack s) (StatePackage (self_arr s) (mask s))
  | _, _ => _action_stack s
  end.
Proof.
  destruct c as [kp1 kp2 method t c | t | n | n | func | ]; simpl.
  - destruct (cls s);
      [ destruct (fm_compute_history s kp1 kp2 method t c) as [H _]
      | destruct (h_compute_history s kp1 kp2 method t) as [H _] ];
      rewrite H; match goal with |- context [match ?o with Return _ => _ | Raise _ _ => _ end] => now destruct o | _ => reflexivity end.
  - destruct (cls s); [ | reflexivity ].
    destruct (FundamentalMatrix.refine_matches E s t) as [s' | e s'] eqn:Hr; simpl.
    + apply refine_matches_returns in Hr. tauto.
    + apply refine_matches_raises in Hr. now subst.
  - unfold rollback. now rewrite restore_action_stack.
  - unfold rollforward. now rewrite restore_action_stack.
  - now destruct (subscribe_history s func).
  - now destruct (condition_history s).
Qed.

Lemma invoke_history_ok (s : obj) (c : call A) :
  history_ok s = true -> steps_ok c = true ->
  history_ok (state_of (invoke E s c)) = true.
Proof.
  rewrite !history_ok_spec. intros [Hlen Hcur] Hc.
  destruct c as [kp1 kp2 method t c | t | n | n | func | ]; simpl in *.
  - destruct (cls s);
      [ destruct (fm_compute_history s kp1 kp2 method t c) as [H1 H2]
      | destruct (h_compute_history s kp1 kp2 method t) as [H1 H2] ];
      simpl in H1, H2; rewrite H1, H2; auto.
  - destruct (cls s); simpl; [ | auto ].
    destruct (FundamentalMatrix.refine_matches E s t) as [s' | e s'] eqn:Hr; simpl.
    + apply refine_matches_returns in Hr. destruct Hr as [H1 H2].
      rewrite H2, H1. rewrite deque_append_length by lia. lia.
    + apply refine_matches_raises in Hr. subst. auto.
  - apply Z.leb_le in Hc. unfold rollback.
    rewrite restore_action_stack, restore_cursor.
    destruct (Z.ltb_spec (_current_action_stack s - n) 0); lia.
  - apply Z.leb_le in Hc. unfold rollforward.
    rewrite restore_action_stack, restore_cursor.
    destruct (Z.gtb_spec (_current_action_stack s + n)
                (Z.of_nat (length (_action_stack s)) - 1)); lia.
  - destruct (subscribe_history s func) as [H1 H2]. rewrite H1, H2. auto.
  - destruct (condition_history s) as [H1 H2]. rewrite H1, H2. auto.
Qed.

Lemma run_history_ok (cs : list (call A)) (s : obj) :
  history_ok s = true -> forallb steps_ok cs = true ->
  history_ok (run E s cs) = true.
Proof.
  revert s. induction cs as [ | c cs IH]; intros s Hs Hcs; simpl in *.
  - exact Hs.
  - apply andb_true_iff in Hcs. destruct Hcs as [Hc Hcs].
    apply IH; [ now apply invoke_history_ok | exact Hcs ].
Qed.

Lemma run_action_stack (cs : list (call A)) (s : obj) :
  (length (_action_stack s) <= maxlen)%nat ->
  _action_stack (run E s cs) =
  lastn maxlen (_action_stack s ++ appended E s cs).
Proof.
  revert s. induction cs as [ | c cs IH]; intros s Hlen; simpl.
  - rewrite app_nil_r. symmetry. now apply lastn_all.
  - assert (Hstep := invoke_action_stack s c).
    assert (Hlen' : (length (_action_stack (state_of (invoke E s c))) <= maxlen)%nat).
    { rewrite Hstep.
      destruct c; try exact Hlen.
      destruct (invoke E s (RefineMatches threshold)); try exact Hlen.
      rewrite deque_append_length by exact Hlen. lia. }
    rewrite (IH _ Hlen'), Hstep.
    destruct c; try reflexivity.
    destruct (invoke E s (RefineMatches threshold)); try reflexivity.
    rewrite deque_append_lastn by exact Hlen.
    rewrite lastn_app_lastn, <- app_assoc. reflexivity.
Qed.
End CallEffects.

(** ** History navigation *)

Section Navigation.
Context {A : Type}.
Local Abbreviation obj := (TransformationMatrix A).

(** What [restore] leaves when the index is on an entry: the cursor, the
    array and the mask are set, and then the class decides. *)
Lemma restore_on_entry (s : obj) (idx : Z) (state : state_package A) :
  py_index (_action_stack s) idx = Some state ->
  let s' := set_mask (set_arr (set_current_action_stack s idx) (arr state))
              (pkg_mask state) in
  restore s idx =
  match cls s with
  | FundamentalMatrix => Return (_notify_subscribers (_clean_attrs s'))
  | Homography => Raise AttributeError s'
  end.
Proof.
  intros Hidx. unfold restore, call_clean_attrs. simpl. rewrite Hidx. simpl.
  destruct (cls s); reflexivity.
Qed.

Lemma rollback_index (s : obj) (n : Z) :
  history_ok s = true -> (0 <= n)%Z ->
  let idx := Z.max 0 (_current_action_stack s - n) in
  rollback s n = restore s idx /\
  (0 <= idx <= _current_action_stack s)%Z /\
  exists state, py_index (_action_stack s) idx = Some state.
Proof.
  rewrite history_ok_spec. intros [Hlen Hcur] Hn. simpl.
  assert (Hidx : (0 <= Z.max 0 (_current_action_stack s - n)
                  <= _current_action_stack s)%Z) by lia.
  split; [ | split; [ exact Hidx | ] ].
  - unfold rollback.
    destruct (Z.ltb_spec (_current_action_stack s - n) 0); f_equal; lia.
  - destruct (@py_index_in_range _ (_action_stack s)
                (Z.max 0 (_current_action_stack s - n))) as [x [Hx _]];
      [ lia | now exists x ].
Qed.

Lemma rollforward_index (s : obj) (n : Z) :
  history_ok s = true -> (0 <= n)%Z ->
  let idx := Z.min (Z.of_nat (length (_action_stack s)) - 1)
               (_current_action_stack s + n) in
  rollforward s n = restore s idx /\
  (_current_action_stack s <= idx <= Z.of_nat (length (_action_stack s)) - 1)%Z /\
  exists state, py_index (_action_stack s) idx = Some state.
Proof.
  rewrite history_ok_spec. intros [Hlen Hcur] Hn. simpl.
  set (last := (Z.of_nat (length (_action_stack s)) - 1)%Z) in *.
  assert (Hidx : (_current_action_stack s
                  <= Z.min last (_current_action_stack s + n) <= last)%Z) by lia.
  split; [ | split; [ exact Hidx | ] ].
  - unfold rollforward. fold last.
    destruct (Z.gtb_spec (_current_action_stack s + n) last); f_equal; lia.
  - destruct (@py_index_in_range _ (_action_stack s)
                (Z.min last (_current_action_stack s + n))) as [x [Hx _]];
      [ unfold last in *; lia | now exists x ].
Qed.

Lemma new_history_ok (c : klass) (M : mat3 A) (idx : list nat) :
  history_ok (new c M idx) = true.
Proof. reflexivity. Qed.
End Navigation.

Section Refinements.
Context {A : Type} {NA : Num A}.
Variable E : externals A.
Local Abbreviation obj := (TransformationMatrix A).

(** With a mask set and the errors computable, [refine_matches] returns,
    and it leaves a mask and the same errors behind: it can run again. *)
Lemma refine_matches_runs (s : obj) (t : A) (m : list bool) (errors : list A) :
  mask s = Some m ->
  FundamentalMatrix.compute_error E s (x1 s) (x2 s) = Val errors ->
  exists s' m',
    FundamentalMatrix.refine_matches E s t = Return s' /\
    cls s' = cls s /\ mask s' = Some m' /\
    FundamentalMatrix.compute_error E s' (x1 s') (x2 s') = Val errors.
Proof.
  intros Hm He. unfold FundamentalMatrix.refine_matches. rewrite Hm, He.
  eexists _, _. split; [ reflexivity | ].
  split; [ reflexivity | ]. split; [ reflexivity | ].
  exact He.
Qed.

(** Every one of a row of such refinements appends its entry. *)
Lemma refinements_append (ts : list A) :
  forall (s : obj) (m : list bool) (errors : list A),
    cls s = FundamentalMatrix ->
    mask s = Some m ->
    FundamentalMatrix.compute_error E s (x1 s) (x2 s) = Val errors ->
    (length (_action_stack s) <= maxlen)%nat ->
    let cs := map (@RefineMatches A) ts in
    length (appended E s cs) = length ts /\
    length (_action_stack (run E s cs))
    = Nat.min maxlen (length (_action_stack s) + length ts).
Proof.
  induction ts as [ | t ts IH]; intros s m errors Hcls Hm He Hlen;
    cbn [map appended run invoke length].
  - split; [ reflexivity | lia ].
  - rewrite Hcls.
    destruct (refine_matches_runs s t Hm He) as [s1 [m1 [Hr [Hcls1 [Hm1 He1]]]]].
    rewrite Hr. cbn [state_of length].
    destruct (refine_matches_returns E _ _ Hr) as [Hst _].
    assert (Hlen1 : length (_action_stack s1)
                    = Nat.min maxlen (length (_action_stack s) + 1)).
    { rewrite Hst. now apply deque_append_length. }
    destruct (IH s1 m1 errors) as [Ha Hl];
      [ congruence | exact Hm1 | exact He1 | lia | ].
    cbn zeta in Ha, Hl. rewrite Ha, Hl, Hlen1. split; lia.
Qed.
End Refinements.

(** C3, as amended: from a state whose history is in order (as the
    constructor leaves it), after any sequence of calls the history holds at
    most 10 entries and is the last 10 of everything that was ever
    appended: the oldest entries leave first, and once 10 were appended 10
    are held.  Entries are appended: on a [FundamentalMatrix] with a mask
    and computable errors, [k] calls of [refine_matches] append [k] entries
    and leave [min(10, len + k)] of them.  When the step counts of the calls
    are not negative, the cursor is on an entry after every call, and a
    [rollback] by more steps than the cursor has behind it puts the cursor
    on entry 0 without an [IndexError]: it returns on a
    [FundamentalMatrix]. *)
Theorem history_bounded_fifo_and_rollback_clamps
    {A : Type} {NA : Num A} (E : externals A)
    (s : TransformationMatrix A) (cs : list (call A)) :
  history_ok s = true ->
  let s' := run E s cs in
  let log := _action_stack s ++ appended E s cs in
  (length (_action_stack s') <= 10)%nat /\
  _action_stack s' = lastn 10 log /\
  ((10 <= length log)%nat -> length (_action_stack s') = 10%nat) /\
  (forall (ts : list A) (m : list bool) (errors : list A),
     cls s' = FundamentalMatrix ->
     mask s' = Some m ->
     FundamentalMatrix.compute_error E s' (x1 s') (x2 s') = Val errors ->
     let refinements := map (@RefineMatches A) ts in
     length (appended E s' refinements) = length ts /\
     length (_action_stack (run E s' refinements))
     = Nat.min 10 (length (_action_stack s') + length ts)) /\
  (forallb steps_ok cs = true ->
   (0 <= _current_action_stack s' <= Z.of_nat (length (_action_stack s')) - 1)%Z /\
   forall n : Z,
     (_current_action_stack s' < n)%Z ->
     _current_action_stack (state_of (rollback s' n)) = 0%Z /\
     _action_stack (state_of (rollback s' n)) = _action_stack s' /\
     match rollback s' n with
     | Return _ => cls s' = FundamentalMatrix
     | Raise e _ => cls s' = Homography /\ e = AttributeError
     end).
Proof.
  intros Hs s' log.
  assert (Hstack : _action_stack s' = lastn 10 log).
  { apply run_action_stack. apply history_ok_spec in Hs. tauto. }
  split; [ rewrite Hstack, lastn_length; lia | ].
  split; [ exact Hstack | ].
  split; [ intros Hlog; rewrite Hstack, lastn_length; lia | ].
  split.
  { intros ts m errors Hcls Hm He.
    apply (refinements_append E ts s' Hcls Hm He).
    rewrite Hstack, lastn_length. unfold maxlen. lia. }
  intros Hcs.
  assert (Hs' : history_ok s' = true) by now apply run_history_ok.
  pose proof Hs' as Hinv. apply history_ok_spec in Hinv.
  destruct Hinv as [Hlen Hcur].
  split; [ exact Hcur | ].
  intros n Hn. split; [ | split ].
  - unfold rollback. rewrite restore_cursor.
    destruct (Z.ltb_spec (_current_action_stack s' - n) 0); lia.
  - unfold rollback. apply restore_action_stack.
  - destruct (@rollback_index _ s' n Hs') as [Hr [_ [state Hstate]]]; [ lia | ].
    rewrite Hr, (restore_on_entry _ _ Hstate).
    destruct (cls s'); auto.
Qed.

Lemma history_bounded_witness :
  let cs := repeat (RefineMatches 1%float) 12 ++ [Rollback 3; Rollforward 1] in
  let s' := run Demo.E_sideways Demo.estimated cs in
  history_ok Demo.estimated = true /\
  forallb steps_ok cs = true /\
  (length (_action_stack s') <= 10)%nat /\
  (0 <= _current_action_stack s' <= Z.of_nat (length (_action_stack s')) - 1)%Z.
Proof.
  intros cs s'.
  pose proof (history_bounded_fifo_and_rollback_clamps
                Demo.E_sideways Demo.estimated cs eq_refl) as H.
  split; [ reflexivity | split; [ reflexivity | ] ].
  split; [ exact (proj1 H) | ].
  exact (proj1 (proj2 (proj2 (proj2 (proj2 H))) eq_refl)).
Defined.

(** C3, as stated, fails: a negative step count is not clamped.  On a
    fresh object, whose history has the one entry 0, [rollback(-5)] leaves
    the cursor on 5 and raises [IndexError], and [rollforward(-1)] returns
    with the cursor on -1. *)
Lemma negative_steps_leave_the_history :
  let s := new FundamentalMatrix Demo.zeros Demo.index8 in
  history_ok s = true /\
  length (_action_stack s) = 1%nat /\
  rollback s (-5) = Raise IndexError (set_current_action_stack s 5) /\
  _current_action_stack (state_of (rollback s (-5))) = 5%Z /\
  returns (rollforward s (-1)) = true /\
  _current_action_stack (state_of (rollforward s (-1))) = (-1)%Z /\
  history_ok (state_of (rollback s (-5))) = false /\
  history_ok (state_of (rollforward s (-1))) = false.
Proof. repeat split. Qed.

(** Twelve refinements after the estimate: 10 entries are left, the first
    of which is the package of the third refinement (the package of the
    construction, that of the first and that of the second are gone). *)
Example twelve_refinements :
  let s' := run Demo.E_sideways Demo.estimated (repeat (RefineMatches 1%float) 12) in
  length (_action_stack s') = 10%nat /\
  _current_action_stack s' = 9%Z /\
  hd_error (_action_stack s') =
    Some (StatePackage Demo.F_sideways (mask Demo.refined)).
Proof. vm_compute. repeat split. Qed.

(** C10: the state package of the construction holds the mask [None],
    not the all-true mask the constructor installs; on a fresh object
    [rollback(n)] with [n >= 1] therefore keeps the array and replaces the
    all-true mask by [None]. *)
Theorem fresh_rollback_drops_mask
    {A : Type} (c : klass) (ndarray : mat3 A) (idx : list nat) (n : Z) :
  (1 <= n)%Z ->
  let s := new c ndarray idx in
  let s' := state_of (rollback s n) in
  _action_stack s = [StatePackage ndarray None] /\
  _current_action_stack s = 0%Z /\
  mask s = Some (repeat true (length idx)) /\
  self_arr s' = self_arr s /\
  mask s' = None /\
  _current_action_stack s' = 0%Z.
Proof.
  intros Hn s s'. subst s'. unfold rollback.
  change (_current_action_stack s) with 0%Z.
  destruct (Z.ltb_spec (0 - n) 0) as [_ | Hge]; [ | lia ].
  unfold restore, call_clean_attrs. simpl.
  destruct c; simpl; repeat split; reflexivity.
Qed.

Lemma fresh_rollback_drops_mask_witness :
  (1 <= 1)%Z /\
  mask (new FundamentalMatrix Demo.zeros Demo.index8) = Some Demo.all8 /\
  mask (state_of (rollback (new FundamentalMatrix Demo.zeros Demo.index8) 1)) = None.
Proof.
  split; [ lia | split; [ reflexivity | ] ].
  apply (@fresh_rollback_drops_mask float FundamentalMatrix Demo.zeros Demo.index8 1).
  lia.
Defined.



(** On a fresh homography both calls raise, and what [rollback] leaves has
    lost the mask. *)
Example homography_rollback_on_fresh :
  let s := new Homography Demo.eye Demo.index8 in
  rollback s 1 = Raise AttributeError (set_mask s None) /\
  rollforward s 1 = Raise AttributeError (set_mask s None).
Proof. split; reflexivity. Qed.

(** ** Undo and redo *)

(** C2, as amended: on a [FundamentalMatrix] whose cursor is on an entry,
    [rollback(k)] followed by [rollforward(k)], with [k] no larger than the
    cursor, returns twice, leaves the history and the cursor as they were,
    and installs the array and the mask of the state package under the
    cursor.  These are the array and the mask held before the [rollback]
    if and only if the object then agreed with that package.  Right after a
    [refine_matches] the package under the cursor is the one taken before
    that refinement: the round trip gives the array back, and the mask if
    and only if the refinement had left the mask as it was. *)
Theorem rollback_rollforward_installs_cursor_package
    {A : Type} {NA : Num A} (E : externals A)
    (s : TransformationMatrix A) (k : Z) :
  cls s = FundamentalMatrix ->
  history_ok s = true ->
  (0 <= k <= _current_action_stack s)%Z ->
  exists s1 s2 state,
    rollback s k = Return s1 /\
    rollforward s1 k = Return s2 /\
    py_index (_action_stack s) (_current_action_stack s) = Some state /\
    _action_stack s2 = _action_stack s /\
    _current_action_stack s2 = _current_action_stack s /\
    self_arr s2 = arr state /\
    mask s2 = pkg_mask state /\
    (self_arr s2 = self_arr s /\ mask s2 = mask s <->
     state = StatePackage (self_arr s) (mask s)) /\
    (forall (s0 : TransformationMatrix A) (threshold : A),
       FundamentalMatrix.refine_matches E s0 threshold = Return s ->
       state = StatePackage (self_arr s0) (mask s0) /\
       self_arr s2 = self_arr s /\
       (mask s2 = mask s <-> mask s = mask s0)).
Proof.
  intros Hcls Hs Hk.
  assert (Hk0 : (0 <= k)%Z) by lia.
  destruct (rollback_index s Hs Hk0) as [Hb [_ [sb Hsb]]].
  rewrite (restore_on_entry _ _ Hsb), Hcls in Hb.
  match type of Hb with _ = Return ?x => set (s1 := x) in * end.
  assert (Hstack1 : _action_stack s1 = _action_stack s) by reflexivity.
  assert (Hcur1 : _current_action_stack s1
                  = Z.max 0 (_current_action_stack s - k)) by reflexivity.
  assert (Hs1 : history_ok s1 = true).
  { apply history_ok_spec. apply history_ok_spec in Hs.
    rewrite Hstack1, Hcur1. lia. }
  destruct (rollforward_index s1 Hs1 Hk0) as [Hf [_ [sf Hsf]]].
  rewrite (restore_on_entry _ _ Hsf) in Hf.
  change (cls s1) with (cls s) in Hf. rewrite Hcls in Hf.
  assert (Hidx : Z.min (Z.of_nat (length (_action_stack s1)) - 1)
                   (_current_action_stack s1 + k) = _current_action_stack s).
  { apply history_ok_spec in Hs. rewrite Hstack1, Hcur1. lia. }
  rewrite Hidx in Hf, Hsf. rewrite Hstack1 in Hsf.
  eexists s1, _, sf.
  split; [ exact Hb | ]. split; [ exact Hf | ]. split; [ exact Hsf | ].
  simpl. do 4 (split; [ reflexivity | ]).
  split.
  { split.
    - intros [Ha Hm]. destruct sf as [M m]. simpl in *. now subst.
    - intros ->. split; reflexivity. }
  intros s0 threshold Hr.
  destruct (refine_matches_returns E _ _ Hr) as [Hst Hcur].
  assert (Hpkg : sf = StatePackage (self_arr s0) (mask s0)).
  { rewrite Hcur, Hst, deque_append_last in Hsf. congruence. }
  assert (Harr : self_arr s = self_arr s0).
  { revert Hr. unfold FundamentalMatrix.refine_matches.
    destruct (mask s0); [ | discriminate ].
    destruct (FundamentalMatrix.compute_error E s0 (x1 s0) (x2 s0));
      [ | discriminate ].
    now intros [= <-]. }
  subst sf. simpl. split; [ reflexivity | ].
  split; [ now symmetry | ].
  split; intros H; now symmetry.
Qed.

Lemma rollback_rollforward_witness :
  let s := Demo.refined in
  cls s = FundamentalMatrix /\ history_ok s = true /\
  (0 <= 1 <= _current_action_stack s)%Z /\
  exists s1 s2 state,
    rollback s 1 = Return s1 /\
    rollforward s1 1 = Return s2 /\
    py_index (_action_stack s) (_current_action_stack s) = Some state /\
    _action_stack s2 = _action_stack s /\
    _current_action_stack s2 = _current_action_stack s /\
    self_arr s2 = arr state /\
    mask s2 = pkg_mask state /\
    (self_arr s2 = self_arr s /\ mask s2 = mask s <->
     state = StatePackage (self_arr s) (mask s)) /\
    (forall (s0 : TransformationMatrix float) (threshold : float),
       FundamentalMatrix.refine_matches Demo.E_sideways s0 threshold = Return s ->
       state = StatePackage (self_arr s0) (mask s0) /\
       self_arr s2 = self_arr s /\
       (mask s2 = mask s <-> mask s = mask s0)).
Proof.
  intros s.
  split; [ reflexivity | split; [ reflexivity | split; [ vm_compute; split; discriminate | ] ] ].
  apply (@rollback_rollforward_installs_cursor_package float _ Demo.E_sideways s 1);
    [ reflexivity | reflexivity | vm_compute; split; discriminate ].
Defined.

(** A refinement that rejects nothing is restored by the round trip: with
    the threshold 10 every match of the demonstration stays an inlier. *)
Example rollback_rollforward_after_idle_refinement :
  let s := run Demo.E_sideways Demo.estimated [RefineMatches 10%float] in
  let s' := state_of (rollforward (state_of (rollback s 1)) 1) in
  mask s = Some Demo.all8 /\ mask s' = mask s /\ self_arr s' = self_arr s.
Proof. vm_compute. repeat split. Qed.

(** C2, as stated, fails: after an estimate and one [refine_matches] that
    rejects two matches, [rollback(1)] and [rollforward(1)] (the cursor is
    1) leave the mask that was held before the refinement, not the one held
    before the [rollback]. *)
Lemma rollback_rollforward_loses_refined_mask :
  let s := Demo.refined in
  let s' := state_of (rollforward (state_of (rollback s 1)) 1) in
  _current_action_stack s = 1%Z /\
  mask s = Some [true; true; true; true; true; true; false; false] /\
  mask s' = Some [true; true; true; true; true; true; true; true] /\
  mask s' <> mask s.
Proof.
  vm_compute. repeat split. discriminate.
Qed.

(** ** Refining the matches *)

(** The comparisons of binary64 floats chain: [e <= t1] and [t1 < t2] give
    [e <= t2] (none of the three is then a NaN). *)
Lemma SFleb_SFltb_trans (a b c : spec_float) :
  SFleb a b = true -> SFltb b c = true -> SFleb a c = true.
Proof.
  unfold SFleb, SFltb, SFcompare.
  destruct a as [sa | sa | | sa ma ea], b as [sb | sb | | sb mb eb],
    c as [sc | sc | | sc mc ec];
    try discriminate; try reflexivity;
    repeat match goal with s : bool |- _ => destruct s end;
    try discriminate; try reflexivity;
    change (PosDef.Pos.compare_cont Eq) with Pos.compare;
    repeat match goal with
    | |- context [(?x ?= ?y)%Z] => destruct (Z.compare_spec x y)
    | |- context [Pos.compare ?x ?y] => destruct (Pos.compare_spec x y)
    end; simpl; try discriminate; try reflexivity; intros; exfalso; lia.
Qed.

Lemma float_leb_ltb_trans (e t1 t2 : float) :
  (e <=? t1)%float = true -> (t1 <? t2)%float = true -> (e <=? t2)%float = true.
Proof. rewrite !leb_spec, ltb_spec. apply SFleb_SFltb_trans. Qed.

Lemma thresholds_nest (t1 t2 : float) (error : list float) :
  (t1 <? t2)%float = true ->
  Forall2 (fun b1 b2 : bool => b1 = true -> b2 = true)
    (map (fun e => (e <=? t1)%float) error)
    (map (fun e => (e <=? t2)%float) error).
Proof.
  intros Ht. induction error as [ | e error IH]; simpl; constructor.
  - intros He. now apply float_leb_ltb_trans with t1.
  - exact IH.
Qed.

(** [compute_error] reads nothing of the object but its array. *)
Lemma fm_compute_error_depends_on_array
    {A : Type} {NA : Num A} (E : externals A)
    (s s' : TransformationMatrix A) (x x' : option (points A)) :
  self_arr s' = self_arr s ->
  FundamentalMatrix.compute_error E s' x x' = FundamentalMatrix.compute_error E s x x'.
Proof. unfold FundamentalMatrix.compute_error. now intros ->. Qed.

(** C6: after [refine_matches(t1)] has returned, [refine_matches(t2)] with
    [t2 > t1] returns too, and every match that the first mask keeps is
    kept by the second: both masks threshold the same errors, those of all
    attached correspondences under the unchanged matrix. *)
Theorem refine_matches_mask_grows_with_threshold
    (E : externals float) (s s1 : TransformationMatrix float) (t1 t2 : float) :
  (t1 <? t2)%float = true ->
  FundamentalMatrix.refine_matches E s t1 = Return s1 ->
  exists s2 error,
    FundamentalMatrix.compute_error E s (x1 s) (x2 s) = Val error /\
    FundamentalMatrix.refine_matches E s1 t2 = Return s2 /\
    mask s1 = Some (map (fun e => (e <=? t1)%float) error) /\
    mask s2 = Some (map (fun e => (e <=? t2)%float) error) /\
    Forall2 (fun b1 b2 : bool => b1 = true -> b2 = true)
      (map (fun e => (e <=? t1)%float) error)
      (map (fun e => (e <=? t2)%float) error).
Proof.
  intros Ht H1.
  unfold FundamentalMatrix.refine_matches in H1.
  destruct (mask s) as [m | ]; [ | discriminate ].
  destruct (FundamentalMatrix.compute_error E s (x1 s) (x2 s)) as [error | e] eqn:Herr;
    [ | discriminate ].
  injection H1 as <-.
  unfold FundamentalMatrix.refine_matches. simpl.
  rewrite (@fm_compute_error_depends_on_array _ _ E s) by reflexivity.
  rewrite Herr.
  eexists _, error. split; [ reflexivity | ]. split; [ reflexivity | ].
  simpl. split; [ reflexivity | ]. split; [ reflexivity | ].
  now apply thresholds_nest.
Qed.

Lemma refine_matches_mask_grows_witness :
  (1 <? 4)%float = true /\
  FundamentalMatrix.refine_matches Demo.E_sideways Demo.estimated 1%float
    = Return Demo.refined /\
  exists s2 error,
    FundamentalMatrix.compute_error Demo.E_sideways Demo.estimated
      (x1 Demo.estimated) (x2 Demo.estimated) = Val error /\
    FundamentalMatrix.refine_matches Demo.E_sideways Demo.refined 4%float = Return s2 /\
    mask Demo.refined = Some (map (fun e => (e <=? 1)%float) error) /\
    mask s2 = Some (map (fun e => (e <=? 4)%float) error) /\
    Forall2 (fun b1 b2 : bool => b1 = true -> b2 = true)
      (map (fun e => (e <=? 1)%float) error)
      (map (fun e => (e <=? 4)%float) error).
Proof.
  split; [ reflexivity | split; [ vm_compute; reflexivity | ] ].
  apply (@refine_matches_mask_grows_with_threshold
           Demo.E_sideways Demo.estimated Demo.refined 1%float 4%float);
    [ reflexivity | vm_compute; reflexivity ].
Defined.

(** The two masks of the example: the threshold 4 re-admits the match that
    is off by 3, which the threshold 1 had rejected. *)
Example refine_twice :
  mask Demo.refined = Some [true; true; true; true; true; true; false; false] /\
  mask (run Demo.E_sideways Demo.refined [RefineMatches 4%float])
    = Some [true; true; true; true; true; true; true; false].
Proof. split; vm_compute; reflexivity. Qed.

(** ** The error of a homography, in exact arithmetic *)

Section RealErrors.
Local Open Scope R_scope.

Lemma add_each_exact (l : list R) (res : R) :
  add_each res l = res + exact_sum l.
Proof.
  revert res. induction l as [ | x l IH]; intros res; simpl.
  - lra.
  - rewrite IH. simpl. lra.
Qed.

Lemma exact_sum_app (l r : list R) :
  exact_sum (l ++ r) = exact_sum l + exact_sum r.
Proof.
  induction l as [ | x l IH]; simpl.
  - lra.
  - rewrite IH. lra.
Qed.

(** The accumulators and the rest hold what the blocks held. *)
Lemma add_blocks_exact (n : nat) :
  forall (l rest : list R) (r0 r1 r2 r3 r4 r5 r6 r7 q0 q1 q2 q3 q4 q5 q6 q7 : R),
    (length l <= n)%nat ->
    add_blocks (r0, r1, r2, r3, r4, r5, r6, r7) l
    = ((q0, q1, q2, q3, q4, q5, q6, q7), rest) ->
    q0 + q1 + q2 + q3 + q4 + q5 + q6 + q7 + exact_sum rest
    = r0 + r1 + r2 + r3 + r4 + r5 + r6 + r7 + exact_sum l.
Proof.
  induction n as [ | n IH];
    intros l rest r0 r1 r2 r3 r4 r5 r6 r7 q0 q1 q2 q3 q4 q5 q6 q7 Hlen Hb;
    destruct l as [ | a0 [ | a1 [ | a2 [ | a3 [ | a4 [ | a5 [ | a6 [ | a7 l]]]]]]]];
    simpl in Hlen; try lia;
    try (injection Hb as <- <- <- <- <- <- <- <- <-; simpl; lra).
  simpl in Hb. apply IH in Hb; [ | lia ].
  rewrite Hb. simpl. lra.
Qed.

(** Over the real numbers the pairwise sum is the sum. *)
Lemma pairwise_sum_exact (fuel : nat) :
  forall l : list R, pairwise_sum fuel l = exact_sum l.
Proof.
  assert (Hshort : forall l : list R, add_each num_zero l = exact_sum l).
  { intros l. rewrite add_each_exact. simpl. lra. }
  assert (Hblocks : forall l : list R,
             match l with
             | a0 :: a1 :: a2 :: a3 :: a4 :: a5 :: a6 :: a7 :: l' =>
                 let '((r0, r1, r2, r3, r4, r5, r6, r7), rest) :=
                   add_blocks (a0, a1, a2, a3, a4, a5, a6, a7) l' in
                 add_each (((r0 + r1) + (r2 + r3)) + ((r4 + r5) + (r6 + r7)))%num
                   rest
             | _ => add_each num_zero l
             end = exact_sum l).
  { intros l.
    destruct l as [ | a0 [ | a1 [ | a2 [ | a3 [ | a4 [ | a5 [ | a6 [ | a7 l]]]]]]]];
      try apply Hshort.
    destruct (add_blocks (a0, a1, a2, a3, a4, a5, a6, a7) l)
      as [[[[[[[[q0 q1] q2] q3] q4] q5] q6] q7] rest] eqn:Hb.
    apply (add_blocks_exact (n := length l)) in Hb; [ | lia ].
    rewrite add_each_exact. simpl in *. lra. }
  induction fuel as [ | fuel IH]; intros l.
  - unfold pairwise_sum.
    destruct (length l <? 8)%nat; [ apply Hshort | ].
    destruct (length l <=? 128)%nat; [ apply Hblocks | apply Hshort ].
  - change (pairwise_sum (S fuel) l) with
      (if (length l <? 8)%nat then add_each num_zero l
       else if (length l <=? 128)%nat then
         match l with
         | a0 :: a1 :: a2 :: a3 :: a4 :: a5 :: a6 :: a7 :: l' =>
             let '((r0, r1, r2, r3, r4, r5, r6, r7), rest) :=
               add_blocks (a0, a1, a2, a3, a4, a5, a6, a7) l' in
             add_each (((r0 + r1) + (r2 + r3)) + ((r4 + r5) + (r6 + r7)))%num
               rest
         | _ => add_each num_zero l
         end
       else
         (pairwise_sum fuel
            (firstn (length l / 2 - (length l / 2) mod 8) l)
          + pairwise_sum fuel
              (skipn (length l / 2 - (length l / 2) mod 8) l))%num).
    destruct (length l <? 8)%nat; [ apply Hshort | ].
    destruct (length l <=? 128)%nat; [ apply Hblocks | ].
    rewrite !IH. simpl. rewrite <- exact_sum_app. now rewrite firstn_skipn.
Qed.

Lemma np_sum_exact (l : list R) : np_sum l = exact_sum l.
Proof.
  unfold np_sum. rewrite pairwise_sum_exact. simpl. lra.
Qed.

Lemma np_sum_cons (x : R) (l : list R) : np_sum (x :: l) = x + np_sum l.
Proof.
  now rewrite !np_sum_exact.
Qed.

Lemma np_sum_nil : np_sum (@nil R) = 0.
Proof.
  now rewrite np_sum_exact.
Qed.

Lemma np_sum_squares_nonneg (l : list R) :
  0 <= np_sum (map Homography.square l).
Proof.
  induction l as [ | x l IH]; simpl map.
  - rewrite np_sum_nil. lra.
  - rewrite np_sum_cons. pose proof (Rle_0_sqr x) as Hx. unfold Rsqr in Hx.
    change (Homography.square x) with (x * x). lra.
Qed.

Lemma np_mean_squares_nonneg (l : list R) :
  0 <= np_mean (map Homography.square l).
Proof.
  unfold np_mean. simpl. unfold Rdiv.
  apply Rmult_le_pos; [ apply np_sum_squares_nonneg | ].
  destruct (length (map Homography.square l)) as [ | n].
  - simpl. rewrite Rinv_0. lra.
  - left. apply Rinv_0_lt_compat, lt_0_INR. lia.
Qed.

(** The squared distances are the sums of the squared residuals, so their
    total is the sum of the two totals. *)
Lemma np_sum_squared_distances {T : Type} (f g : T -> R) (l : list T) :
  np_sum (map (fun '(x, y) => Homography.square x + Homography.square y)%num
            (combine (map f l) (map g l)))
  = np_sum (map Homography.square (map f l))
    + np_sum (map Homography.square (map g l)).
Proof.
  rewrite !np_sum_exact.
  induction l as [ | r l IH]; simpl in *.
  - lra.
  - rewrite IH. lra.
Qed.

Lemma squared_distances_nonneg {T : Type} (f g : T -> R) (l : list T) :
  0 <= np_mean (map (fun '(x, y) => Homography.square x + Homography.square y)%num
                  (combine (map f l) (map g l))).
Proof.
  unfold np_mean. rewrite np_sum_squared_distances. simpl. unfold Rdiv.
  apply Rmult_le_pos.
  - pose proof (np_sum_squares_nonneg (map f l)).
    pose proof (np_sum_squares_nonneg (map g l)). lra.
  - match goal with |- 0 <= / INR ?n => destruct n as [ | k] end.
    + simpl. rewrite Rinv_0. lra.
    + left. apply Rinv_0_lt_compat, lt_0_INR. lia.
Qed.

Lemma np_mean_squared_distances {T : Type} (f g : T -> R) (l : list T) :
  np_mean (map (fun '(x, y) => Homography.square x + Homography.square y)%num
             (combine (map f l) (map g l)))
  = np_mean (map Homography.square (map f l))
    + np_mean (map Homography.square (map g l)).
Proof.
  unfold np_mean. rewrite np_sum_squared_distances.
  rewrite length_map, length_combine, !length_map, Nat.min_id.
  simpl. unfold Rdiv. ring.
Qed.
End RealErrors.




(** On floats that stay finite the two sides agree up to rounding: with
    the residuals (1, 1), (0, 2), (1, 0) they differ in the last place, and
    agree within 2^-50. *)
Example homography_rms_on_floats :
  let s := new Homography Demo.eye [0; 1; 2]%nat in
  let a := Some (Pts2 [(0, 0); (1, 1); (2, 2)]%float) in
  let b := Some (Pts2 [(1, 1); (1, 3); (3, 2)]%float) in
  match Homography.compute_error s a b None with
  | Val df =>
      let lhs := (total_rms df * total_rms df)%float in
      let rhs := (x_rms df * x_rms df + y_rms df * y_rms df)%float in
      (lhs =? rhs)%float = false /\
      (PrimFloat.abs (lhs - rhs) <=? 0x1p-50)%float = true
  | Err _ => False
  end.
Proof. vm_compute. split; reflexivity. Qed.

(** A mask that rejects a row makes the table shorter than the index, and
    the construction of the frame fails. *)
Example homography_error_with_rejected_row :
  Homography.compute_error (new Homography Demo.eye [0; 1]%nat)
    (Some (Pts2 [(0, 0); (1, 1)]%float)) (Some (Pts2 [(1, 0); (1, 3)]%float))
    (Some [true; false])
  = Err ValueError.
Proof. reflexivity. Qed.

(** ** Estimation *)

Section Estimation.
Context {A : Type} {NA : Num A}.
Variable E : externals A.
Local Abbreviation obj := (TransformationMatrix A).

(** The accepted method strings of the two [compute] methods. *)
Lemma fm_method_flag_none (method : string) :
  FundamentalMatrix.method_flag method = None <->
  ~ In method ["mle"; "ransac"; "lmeds"; "normal"; "8point"]%string.
Proof.
  unfold FundamentalMatrix.method_flag. simpl.
  repeat match goal with
  | |- context [(method =? ?x)%string] =>
      destruct (String.eqb_spec method x); [ subst; split; [ discriminate | tauto ] | ]
  end.
  split; [ intros _ | reflexivity ].
  intros H. repeat destruct H as [H | H]; try (symmetry in H; contradiction); exact H.
Qed.

Lemma h_method_flag_none (method : string) :
  Homography.method_flag method = None <->
  ~ In method ["ransac"; "lmeds"; "normal"]%string.
Proof.
  unfold Homography.method_flag. simpl.
  repeat match goal with
  | |- context [(method =? ?x)%string] =>
      destruct (String.eqb_spec method x); [ subst; split; [ discriminate | tauto ] | ]
  end.
  split; [ intros _ | reflexivity ].
  intros H. repeat destruct H as [H | H]; try (symmetry in H; contradiction); exact H.
Qed.

(** An unknown method makes [FundamentalMatrix.compute] raise before it has
    touched the object. *)
Lemma fm_compute_unknown_method (s : obj) kp1 kp2 method t c :
  ~ In method ["mle"; "ransac"; "lmeds"; "normal"; "8point"]%string ->
  FundamentalMatrix.compute E s kp1 kp2 method t c = Raise ValueError s.
Proof.
  intros H. apply fm_method_flag_none in H.
  unfold FundamentalMatrix.compute. now rewrite H.
Qed.

(** An unknown method makes [Homography.compute] raise after it has
    attached the two point arrays: the array, the mask and the history are
    as before, the correspondences are not. *)
Lemma h_compute_unknown_method (s : obj) kp1 kp2 method t :
  ~ In method ["ransac"; "lmeds"; "normal"]%string ->
  Homography.compute E s kp1 kp2 method t
  = Raise ValueError (set_x2 (set_x1 s (Some kp1)) (Some kp2)).
Proof.
  intros H. apply h_method_flag_none in H.
  unfold Homography.compute. now rewrite H.
Qed.

(** With a method other than ['mle'], a single estimate and arrays that fit
    the index, [FundamentalMatrix.compute] returns with the estimate as the
    estimator gave it: whatever the enforcement did to the array held
    before is overwritten. *)
Lemma fm_compute_installs_estimate
    (s : obj) kp1 kp2 method flag t c (F : mat3 A) (m : list bool) :
  FundamentalMatrix.method_flag method = Some flag ->
  (method =? "mle")%string = false ->
  findFundamentalMat E kp1 kp2 flag t c = (Single F, Some m) ->
  n_rows kp1 = length (index s) ->
  n_rows kp2 = length (index s) ->
  length m = length (index s) ->
  exists s',
    FundamentalMatrix.compute E s kp1 kp2 method t c = Return s' /\
    self_arr s' = F /\ mask s' = Some m /\
    x1 s' = Some kp1 /\ x2 s' = Some kp2.
Proof.
  intros Hflag Hmle Hest H1 H2 Hm.
  unfold FundamentalMatrix.compute. rewrite Hflag, Hest, Hmle.
  assert (Hidx : index (FundamentalMatrix._enforce_singularity_constraint E s)
                 = index s).
  { unfold FundamentalMatrix._enforce_singularity_constraint.
    destruct (rank E s =? 2)%nat; [ reflexivity | ].
    now destruct (svd E (self_arr s)) as [[u [[d0 d1] d2]] vt]. }
  simpl. rewrite Hidx, H1, H2, Hm, !Nat.eqb_refl. simpl.
  eexists. repeat split.
Qed.

(** Neither [compute] resets the cached condition. *)
Lemma fm_compute_keeps_condition (s : obj) kp1 kp2 method t c :
  _condition (state_of (FundamentalMatrix.compute E s kp1 kp2 method t c))
  = _condition s.
Proof. fm_compute_paths E; reflexivity. Qed.

Lemma h_compute_keeps_condition (s : obj) kp1 kp2 method t :
  _condition (state_of (Homography.compute E s kp1 kp2 method t))
  = _condition s.
Proof.
  unfold Homography.compute.
  destruct (Homography.method_flag method); simpl; [ | reflexivity ].
  destruct (findHomography E _ _ _ t) as [[H | ] m]; reflexivity.
Qed.

(** The three methods that do reset it, on a [FundamentalMatrix]. *)
Lemma refine_matches_resets_condition (s s' : obj) (threshold : A) :
  FundamentalMatrix.refine_matches E s threshold = Return s' ->
  _condition s' = None.
Proof.
  unfold FundamentalMatrix.refine_matches.
  destruct (mask s); [ | discriminate ].
  destruct (FundamentalMatrix.compute_error E s (x1 s) (x2 s)); [ | discriminate ].
  now intros [= <-].
Qed.

Lemma restore_resets_condition (s s' : obj) (idx : Z) :
  restore s idx = Return s' -> _condition s' = None.
Proof.
  unfold restore, call_clean_attrs. simpl.
  destruct (py_index (_action_stack s) idx); [ | discriminate ].
  simpl. destruct (cls s); [ | discriminate ].
  now intros [= <-].
Qed.

(** A read of [condition] with nothing cached computes the ratio of the
    first two singular values and caches it; a read with a truthy cached
    value returns that value. *)
Lemma condition_computed (s : obj) :
  _condition s = None ->
  let '(_, (d0, d1, _), _) := svd E (self_arr s) in
  condition E s = ((d0 / d1)%num, set_condition s (Some (d0 / d1)%num)).
Proof.
  intros H. unfold condition. rewrite H.
  now destruct (svd E (self_arr s)) as [[u [[d0 d1] d2]] vt].
Qed.

Lemma condition_cached (s : obj) (c : A) :
  _condition s = Some c -> num_truthy c = true -> condition E s = (c, s).
Proof.
  intros H Hc. unfold condition. rewrite H, Hc.
  now destruct (svd E (self_arr s)) as [[u [[d0 d1] d2]] vt].
Qed.
End Estimation.

(** C1, which the code violates.  The singularity constraint is enforced on
    the array the object holds before the estimate is copied into it, and
    the copy then overwrites it: for every estimate [F] that the estimator
    returns, with any SVD and any rank function, [compute] returns with [F]
    itself as the array, so its rank is that of the raw estimate, whatever
    that is. *)
Theorem compute_stores_estimate_without_enforcement
    (E : externals float) (F : mat3 float) :
  let E' := with_fundamental_estimate E (Single F) (Some Demo.all8) in
  let o := FundamentalMatrix.compute E'
             (new FundamentalMatrix Demo.zeros Demo.index8)
             Demo.kp1 Demo.kp2 "ransac" 2%float Demo.confidence in
  returns o = true /\
  self_arr (state_of o) = F /\
  rank E' (state_of o) = matrix_rank E F.
Proof.
  intros E' o. subst o.
  unfold FundamentalMatrix.compute,
    FundamentalMatrix._enforce_singularity_constraint.
  simpl.
  destruct (matrix_rank E Demo.zeros =? 2)%nat; simpl.
  - repeat split.
  - destruct (svd E Demo.zeros) as [[u [[d0 d1] d2]] vt]. simpl. repeat split.
Qed.

(** With the demonstration kernel and the identity as the estimate, the
    object holds a matrix of rank 3 when [compute] returns. *)
Example compute_leaves_rank_three :
  let E := Demo.externals_returning (Single Demo.eye) None (Some Demo.all8) in
  let s := run E (new FundamentalMatrix Demo.zeros Demo.index8)
             [Compute Demo.kp1 Demo.kp2 "ransac" 2%float Demo.confidence] in
  self_arr s = Demo.eye /\ rank E s = 3%nat.
Proof. split; vm_compute; reflexivity. Qed.

(** When the 7-point solver answers with its stack of candidates, [compute]
    warns and returns with the array it held before, after enforcement: for
    an object made from zeros, the zero matrix. *)
Example compute_after_seven_point_fallback :
  let E := Demo.externals_returning
             (Stacked [Demo.eye; Demo.eye; Demo.eye]) None (Some Demo.all8) in
  let o := invoke E (new FundamentalMatrix Demo.zeros Demo.index8)
             (Compute Demo.kp1 Demo.kp2 "normal" 2%float Demo.confidence) in
  returns o = true /\
  warned (state_of o) = [SevenPointFallback] /\
  self_arr (state_of o) = Demo.zeros /\
  rank E (state_of o) = 0%nat.
Proof. repeat split; vm_compute; reflexivity. Qed.

(** C5, which the code violates in its last part.  With [method='mle'] and
    8 inliers the refinement is given up with a warning and [compute]
    returns, but the array is the estimate [F] as the estimator returned
    it, not a rank-2-enforced one: the enforcement ran on the array held
    before, which [F] then overwrote. *)
Theorem mle_with_few_inliers_keeps_raw_estimate
    (E : externals float) (F : mat3 float) :
  let E' := with_fundamental_estimate E (Single F) (Some Demo.all8) in
  let o := FundamentalMatrix.compute E'
             (new FundamentalMatrix Demo.zeros Demo.index8)
             Demo.kp1 Demo.kp2 "mle" 2%float Demo.confidence in
  returns o = true /\
  warned (state_of o) = [NotEnoughCorrespondences] /\
  self_arr (state_of o) = F /\
  rank E' (state_of o) = matrix_rank E F.
Proof.
  intros E' o. subst o.
  unfold FundamentalMatrix.compute, FundamentalMatrix.mle,
    FundamentalMatrix._enforce_singularity_constraint.
  simpl.
  destruct (matrix_rank E Demo.zeros =? 2)%nat; simpl.
  - repeat split.
  - destruct (svd E Demo.zeros) as [[u [[d0 d1] d2]] vt]. simpl. repeat split.
Qed.

(** C4, which [Homography.compute] violates.  With an unknown method it
    raises [ValueError], and the array, the mask and the history are
    untouched, but the two point arrays have already been attached: a fresh
    homography, which had no correspondences, holds [kp1] and [kp2] after
    the failed call. *)
Theorem homography_unknown_method_attaches_points (E : externals float) :
  let s := new Homography Demo.eye Demo.index8 in
  let o := Homography.compute E s Demo.kp1 Demo.kp2 "bogus" 2%float in
  o = Raise ValueError (set_x2 (set_x1 s (Some Demo.kp1)) (Some Demo.kp2)) /\
  x1 s = None /\ x2 s = None /\
  x1 (state_of o) = Some Demo.kp1 /\ x2 (state_of o) = Some Demo.kp2 /\
  self_arr (state_of o) = self_arr s /\
  mask (state_of o) = mask s /\
  _action_stack (state_of o) = _action_stack s.
Proof. repeat split. Qed.

(** C7, which [compute] violates.  A matrix with the singular values 4, 2, 1
    reads the condition 2; [compute] then installs an estimate with the
    singular values 9, 3, 0 and leaves the cached value in place, so the
    next read still gives 2, not 9 / 3. *)
Theorem condition_is_stale_after_compute :
  let E := Demo.externals_returning
             (Single (diag 9 3 0)%float) None (Some Demo.all8) in
  let s0 := new FundamentalMatrix (diag 4 2 1)%float Demo.index8 in
  let s := run E s0
             [ReadCondition; Compute Demo.kp1 Demo.kp2 "ransac" 2%float Demo.confidence] in
  fst (condition E s0) = 2%float /\
  self_arr s = (diag 9 3 0)%float /\
  snd (fst (svd E (self_arr s))) = (9, 3, 0)%float /\
  _condition s = Some 2%float /\
  fst (condition E s) = 2%float.
Proof. repeat split; vm_compute; reflexivity. Qed.

(** The same on a homography: [rollback] raises before the cache is reset,
    so the condition read afterwards is that of the matrix it replaced. *)
Example condition_is_stale_after_homography_rollback :
  let E := Demo.externals_returning
             NoEstimate (Some (diag 9 3 1)%float) (Some Demo.all8) in
  let s0 := new Homography (diag 4 2 1)%float Demo.index8 in
  let s := run E s0
             [Compute (Pts2 []) (Pts2 []) "normal" 2%float Demo.confidence;
              ReadCondition; Rollback 1] in
  self_arr s = (diag 4 2 1)%float /\ fst (condition E s) = 3%float.
Proof. split; vm_compute; reflexivity. Qed.

(** * Further properties of the module *)

(** ** What [compute] leaves alone *)

Section ComputeFrame.
Context {A : Type} {NA : Num A}.
Variable E : externals A.
Local Abbreviation obj := (TransformationMatrix A).

Lemma fm_compute_frame (s : obj) kp1 kp2 method t c :
  let s' := state_of (FundamentalMatrix.compute E s kp1 kp2 method t c) in
  cls s' = cls s /\ index s' = index s /\
  _observers s' = _observers s /\ notified s' = notified s.
Proof. fm_compute_paths E; tauto. Qed.

Lemma h_compute_frame (s : obj) kp1 kp2 method t :
  let s' := state_of (Homography.compute E s kp1 kp2 method t) in
  cls s' = cls s /\ index s' = index s /\
  _observers s' = _observers s /\ notified s' = notified s.
Proof.
  unfold Homography.compute.
  destruct (Homography.method_flag method); simpl; [ | tauto ].
  destruct (findHomography E _ _ _ t) as [[H | ] m]; simpl; tauto.
Qed.
End ComputeFrame.

(** X1: for every method string other than 'mle', 'ransac', 'lmeds',
    'normal' and '8point', [FundamentalMatrix.compute] raises [ValueError]
    before it has touched anything: the object is left as it was, whatever
    the points are and whatever the estimator would have answered.  (With
    one of the five strings the call can raise [ValueError] as well, from
    an array that does not fit the index; the enforcement has then run.) *)
Theorem fm_compute_unknown_method_touches_nothing
    {A : Type} {NA : Num A} (E : externals A)
    (s : TransformationMatrix A) (kp1 kp2 : points A) (method : string)
    (t c : A) :
  ~ In method ["mle"; "ransac"; "lmeds"; "normal"; "8point"]%string ->
  FundamentalMatrix.compute E s kp1 kp2 method t c = Raise ValueError s /\
  state_of (FundamentalMatrix.compute E s kp1 kp2 method t c) = s.
Proof.
  intros Hm.
  rewrite fm_compute_unknown_method by exact Hm.
  split; reflexivity.
Qed.

(** X2: neither [compute] commits anything to the history, moves the
    cursor, changes the observers or calls one, whether it returns or
    raises. *)
Theorem compute_commits_no_history_and_notifies_nobody
    {A : Type} {NA : Num A} (E : externals A)
    (s : TransformationMatrix A) (kp1 kp2 : points A) (method : string)
    (t c : A) :
  let s' := state_of (invoke E s (Compute kp1 kp2 method t c)) in
  _action_stack s' = _action_stack s /\
  _current_action_stack s' = _current_action_stack s /\
  _observers s' = _observers s /\
  notified s' = notified s.
Proof.
  simpl. destruct (cls s).
  - destruct (fm_compute_history E s kp1 kp2 method t c) as [H1 H2].
    destruct (fm_compute_frame E s kp1 kp2 method t c) as [_ [_ [H3 H4]]].
    tauto.
  - destruct (h_compute_history E s kp1 kp2 method t) as [H1 H2].
    destruct (h_compute_frame E s kp1 kp2 method t) as [_ [_ [H3 H4]]].
    tauto.
Qed.

(** X3: when the estimator hands back no mask, [FundamentalMatrix.compute]
    returns without a word and without having changed the object. *)
Theorem fm_compute_without_mask_is_silent
    {A : Type} {NA : Num A} (E : externals A)
    (s : TransformationMatrix A) (kp1 kp2 : points A)
    (method : string) (flag : fm_method) (t c : A) (F : estimate A) :
  FundamentalMatrix.method_flag method = Some flag ->
  findFundamentalMat E kp1 kp2 flag t c = (F, None) ->
  FundamentalMatrix.compute E s kp1 kp2 method t c = Return s.
Proof.
  intros Hflag Hest. unfold FundamentalMatrix.compute.
  now rewrite Hflag, Hest.
Qed.

Lemma fm_compute_without_mask_witness :
  let E := Demo.externals_returning NoEstimate None None in
  let s := new FundamentalMatrix Demo.zeros Demo.index8 in
  FundamentalMatrix.compute E s Demo.kp1 Demo.kp2 "lmeds" 2%float Demo.confidence
  = Return s.
Proof.
  intros E s.
  apply (@fm_compute_without_mask_is_silent float _ E s Demo.kp1 Demo.kp2
           "lmeds"%string FM_LMEDS 2%float Demo.confidence NoEstimate);
    reflexivity.
Defined.

(** X4: when the estimator hands back a mask and the arrays fit the index,
    [FundamentalMatrix.compute] attaches the two point arrays and the mask
    and returns, with the history as it was, also when the estimate is not
    one 3x3 matrix.  A stack of another shape (the 9x3 of the 7-point
    solver) cannot be stored: the call warns, and the array is the one the
    object held before, after the enforcement.  [None] can: with a method
    other than 'mle' it is stored without a warning, as NaN in every
    cell. *)
Theorem fm_compute_fallback_attaches_without_estimate
    {A : Type} {NA : Num A} (E : externals A)
    (s : TransformationMatrix A) (kp1 kp2 : points A)
    (method : string) (flag : fm_method) (t c : A)
    (F : estimate A) (m : list bool) :
  FundamentalMatrix.method_flag method = Some flag ->
  findFundamentalMat E kp1 kp2 flag t c = (F, Some m) ->
  n_rows kp1 = length (index s) ->
  n_rows kp2 = length (index s) ->
  length m = length (index s) ->
  exists s',
    FundamentalMatrix.compute E s kp1 kp2 method t c = Return s' /\
    x1 s' = Some kp1 /\ x2 s' = Some kp2 /\ mask s' = Some m /\
    _action_stack s' = _action_stack s /\
    (forall Fs, F = Stacked Fs -> length Fs <> 1%nat ->
       self_arr s'
       = self_arr (FundamentalMatrix._enforce_singularity_constraint E s) /\
       warned s' = warned s ++ [SevenPointFallback]) /\
    (F = NoEstimate -> method <> "mle"%string ->
       self_arr s' = nan_matrix /\ warned s' = warned s).
Proof.
  intros Hflag Hest H1 H2 Hm.
  unfold FundamentalMatrix.compute. rewrite Hflag, Hest.
  assert (Hfr : index (FundamentalMatrix._enforce_singularity_constraint E s)
                = index s /\
                warned (FundamentalMatrix._enforce_singularity_constraint E s)
                = warned s /\
                _action_stack (FundamentalMatrix._enforce_singularity_constraint E s)
                = _action_stack s).
  { unfold FundamentalMatrix._enforce_singularity_constraint.
    destruct (rank E s =? 2)%nat; [ tauto | ].
    destruct (svd E (self_arr s)) as [[u [[d0 d1] d2]] vt]. simpl. tauto. }
  destruct Hfr as [Hidx [Hw Hst]].
  simpl. rewrite Hidx, H1, H2, Hm, !Nat.eqb_refl. simpl.
  unfold FundamentalMatrix.mle.
  destruct F as [M | [ | M [ | M' Fs]] | ]; simpl;
    repeat match goal with
    | |- context [if ?b then _ else _] => destruct b eqn:?; simpl
    end;
    (eexists; split; [ reflexivity | ]; simpl; rewrite ?Hw, ?Hst;
     do 4 (split; [ reflexivity | ]);
     (split;
      [ intros Fs' HF Hne; try discriminate HF;
        injection HF as <-; simpl in Hne; try lia; split; reflexivity
      | intros HF Hmle; try discriminate HF;
        try (exfalso; apply Hmle; now apply String.eqb_eq);
        split; reflexivity ])).
Qed.

Lemma fm_compute_fallback_witness :
  let E := Demo.externals_returning
             (Stacked [Demo.eye; Demo.eye; Demo.eye]) None (Some Demo.all8) in
  let s := new FundamentalMatrix Demo.zeros Demo.index8 in
  exists s',
    FundamentalMatrix.compute E s Demo.kp1 Demo.kp2 "normal" 2%float Demo.confidence
    = Return s' /\
    x1 s' = Some Demo.kp1 /\ x2 s' = Some Demo.kp2 /\ mask s' = Some Demo.all8 /\
    _action_stack s' = _action_stack s /\
    self_arr s' = self_arr (FundamentalMatrix._enforce_singularity_constraint E s) /\
    warned s' = warned s ++ [SevenPointFallback].
Proof.
  intros E s.
  destruct (@fm_compute_fallback_attaches_without_estimate float _ E s
              Demo.kp1 Demo.kp2 "normal"%string FM_7POINT 2%float Demo.confidence
              (Stacked [Demo.eye; Demo.eye; Demo.eye]) Demo.all8
              eq_refl eq_refl eq_refl eq_refl eq_refl)
    as [s' [Hr [Hx1 [Hx2 [Hm [Hst [Hstack _]]]]]]].
  exists s'.
  destruct (Hstack [Demo.eye; Demo.eye; Demo.eye] eq_refl) as [Harr Hw];
    [ simpl; discriminate | ].
  repeat split; assumption.
Defined.

(** The estimator answers [None] with a mask: the array of the object is
    NaN in every cell after [compute], and nothing was warned. *)
Example fm_compute_stores_nan_for_none :
  let E := Demo.externals_returning NoEstimate None (Some Demo.all8) in
  let s := run E (new FundamentalMatrix Demo.eye Demo.index8)
             [Compute Demo.kp1 Demo.kp2 "ransac" 2%float Demo.confidence] in
  let '((a, b, c), (d, e, f), (g, h, i)) := self_arr s in
  forallb is_nan [a; b; c; d; e; f; g; h; i] = true /\ warned s = [].
Proof. vm_compute. split; reflexivity. Qed.

Lemma fm_compute_unknown_method_witness :
  ~ In "RANSAC"%string ["mle"; "ransac"; "lmeds"; "normal"; "8point"]%string /\
  FundamentalMatrix.compute Demo.E_sideways Demo.estimated
    Demo.kp1 Demo.kp2 "RANSAC" 2%float Demo.confidence
  = Raise ValueError Demo.estimated.
Proof.
  assert (Hm : ~ In "RANSAC"%string
                 ["mle"; "ransac"; "lmeds"; "normal"; "8point"]%string).
  { simpl. intros H. repeat destruct H as [H | H]; try discriminate H; exact H. }
  split; [ exact Hm | ].
  exact (proj1 (@fm_compute_unknown_method_touches_nothing float _
                  Demo.E_sideways Demo.estimated Demo.kp1 Demo.kp2
                  "RANSAC"%string 2%float Demo.confidence Hm)).
Defined.

(** ** What [refine_matches] commits *)

(** X5: apart from an exception of an observer, which would escape after
    the commit, [refine_matches] commits all or nothing.  When it raises
    itself (there is no mask to copy, or [compute_error] raises), the
    object is as it was.  When it returns, the array, the correspondences,
    the index and the observers are as they were, the cached condition is
    reset, every observer has been called once more, and the new mask has
    one entry for each row of [x2]. *)
Theorem refine_matches_all_or_nothing
    {A : Type} {NA : Num A} (E : externals A)
    (s : TransformationMatrix A) (threshold : A) :
  match FundamentalMatrix.refine_matches E s threshold with
  | Raise _ s' => s' = s
  | Return s' =>
      self_arr s' = self_arr s /\ x1 s' = x1 s /\ x2 s' = x2 s /\
      index s' = index s /\ _observers s' = _observers s /\
      _condition s' = None /\
      notified s' = notified s ++ _observers s /\
      exists m, mask s' = Some m /\ option_map n_rows (x2 s) = Some (length m)
  end.
Proof.
  unfold FundamentalMatrix.refine_matches, FundamentalMatrix.compute_error.
  destruct (mask s) as [m0 | ]; [ | reflexivity ].
  destruct (x1 s) as [[r1 | r1] | ] eqn:Hx1; try reflexivity.
  destruct (x2 s) as [[r2 | r2] | ] eqn:Hx2; try reflexivity.
  destruct (broadcast_rows
              (normalize_vector E
                 (map (fun r => vec_mat r (transpose (self_arr s))) r1))
              (length r2)) as [l | ] eqn:Hb; [ | reflexivity ].
  simpl. rewrite Hx1, Hx2. repeat split.
  eexists. split; [ reflexivity | ].
  simpl.
  rewrite !length_map, length_combine, (broadcast_rows_length _ _ Hb), Nat.min_id.
  reflexivity.
Qed.

(** X6: [rollback(0)] right after a [refine_matches] undoes it: on a
    [FundamentalMatrix] the call returns with the array and the mask held
    before the refinement, and leaves the history, with the entry of the
    refinement, and the cursor as the refinement left them. *)
Theorem refine_then_rollback_zero_undoes
    {A : Type} {NA : Num A} (E : externals A)
    (s s1 : TransformationMatrix A) (threshold : A) :
  cls s = FundamentalMatrix ->
  FundamentalMatrix.refine_matches E s threshold = Return s1 ->
  exists s2,
    rollback s1 0 = Return s2 /\
    self_arr s2 = self_arr s /\ mask s2 = mask s /\
    _action_stack s2 = _action_stack s1 /\
    _current_action_stack s2 = _current_action_stack s1.
Proof.
  intros Hcls Hr.
  destruct (refine_matches_returns E _ _ Hr) as [Hst Hcur].
  assert (Hcls1 : cls s1 = FundamentalMatrix).
  { revert Hr. unfold FundamentalMatrix.refine_matches.
    destruct (mask s); [ | discriminate ].
    destruct (FundamentalMatrix.compute_error E s (x1 s) (x2 s));
      [ | discriminate ].
    now intros [= <-]. }
  assert (Hidx : py_index (_action_stack s1) (_current_action_stack s1)
                 = Some (StatePackage (self_arr s) (mask s))).
  { rewrite Hcur, Hst. apply deque_append_last. }
  assert (Hpos : (0 <= _current_action_stack s1)%Z).
  { rewrite Hcur, Hst. unfold deque_append.
    destruct (length (_action_stack s) <? maxlen)%nat eqn:Hlt.
    - rewrite length_app. simpl. lia.
    - apply Nat.ltb_ge in Hlt. unfold maxlen in Hlt.
      destruct (_action_stack s) as [ | a d]; simpl in *; [ lia | ].
      rewrite length_app. simpl. lia. }
  unfold rollback.
  replace (_current_action_stack s1 - 0)%Z with (_current_action_stack s1) by lia.
  destruct (Z.ltb_spec (_current_action_stack s1) 0) as [Hneg | _]; [ lia | ].
  rewrite (restore_on_entry _ _ Hidx), Hcls1.
  eexists. split; [ reflexivity | ]. simpl. repeat split.
Qed.

Lemma refine_then_rollback_zero_witness :
  exists s2,
    rollback Demo.refined 0 = Return s2 /\
    self_arr s2 = self_arr Demo.estimated /\ mask s2 = mask Demo.estimated /\
    _action_stack s2 = _action_stack Demo.refined /\
    _current_action_stack s2 = _current_action_stack Demo.refined.
Proof.
  apply (@refine_then_rollback_zero_undoes float _ Demo.E_sideways
           Demo.estimated Demo.refined 1%float);
    [ reflexivity | vm_compute; reflexivity ].
Defined.

(** X7: a [rollback] before the first refinement leaves a
    [FundamentalMatrix] on which [refine_matches] cannot run.  Whatever
    [compute] did to a fresh object, [rollback(n)] with [n >= 0] installs
    the mask [None] of the first entry, and [refine_matches] then raises
    [AttributeError] and changes nothing. *)
Theorem rollback_before_first_refinement_disables_refine
    {A : Type} {NA : Num A} (E : externals A)
    (ndarray : mat3 A) (idx : list nat) (kp1 kp2 : points A)
    (method : string) (t c threshold : A) (n : Z) :
  (0 <= n)%Z ->
  let s0 := new FundamentalMatrix ndarray idx in
  let s1 := state_of (FundamentalMatrix.compute E s0 kp1 kp2 method t c) in
  exists s2,
    rollback s1 n = Return s2 /\
    self_arr s2 = ndarray /\ mask s2 = None /\
    FundamentalMatrix.refine_matches E s2 threshold = Raise AttributeError s2.
Proof.
  intros Hn s0 s1.
  destruct (fm_compute_history E s0 kp1 kp2 method t c) as [Hst Hcur].
  destruct (fm_compute_frame E s0 kp1 kp2 method t c) as [Hcls _].
  fold s1 in Hst, Hcur, Hcls. simpl in Hst, Hcur, Hcls.
  assert (Hidx : py_index (_action_stack s1) 0
                 = Some (StatePackage ndarray None)) by now rewrite Hst.
  unfold rollback. rewrite Hcur.
  replace (if (0 - n <? 0)%Z then 0%Z else (0 - n)%Z) with 0%Z
    by (destruct (Z.ltb_spec (0 - n) 0); lia).
  rewrite (restore_on_entry _ _ Hidx), Hcls.
  eexists. split; [ reflexivity | ]. simpl. repeat split.
Qed.

Lemma rollback_before_first_refinement_witness :
  (0 <= 1)%Z /\
  exists s2,
    rollback Demo.estimated 1 = Return s2 /\
    self_arr s2 = Demo.zeros /\ mask s2 = None /\
    FundamentalMatrix.refine_matches Demo.E_sideways s2 1%float
    = Raise AttributeError s2.
Proof.
  split; [ lia | ].
  apply (@rollback_before_first_refinement_disables_refine float _
           Demo.E_sideways Demo.zeros Demo.index8 Demo.kp1 Demo.kp2
           "ransac"%string 2%float Demo.confidence 1%float 1).
  lia.
Defined.

(** ** More on history navigation *)

Section MoreNavigation.
Context {A : Type}.
Local Abbreviation obj := (TransformationMatrix A).

(** The state [restore] leaves when the index is on an entry, whatever the
    class. *)
Lemma restore_installs (s : obj) (idx : Z) (state : state_package A) :
  py_index (_action_stack s) idx = Some state ->
  let s' := state_of (restore s idx) in
  self_arr s' = arr state /\ mask s' = pkg_mask state /\
  _current_action_stack s' = idx /\ _action_stack s' = _action_stack s /\
  cls s' = cls s.
Proof.
  intros Hidx. simpl. rewrite (restore_on_entry _ _ Hidx).
  destruct (cls s) eqn:Hcls; simpl; rewrite ?Hcls; repeat split.
Qed.

(** What [restore] never touches, in any outcome. *)
Lemma restore_frame (s : obj) (idx : Z) :
  let s' := state_of (restore s idx) in
  x1 s' = x1 s /\ x2 s' = x2 s /\ index s' = index s /\
  _observers s' = _observers s /\ _action_stack s' = _action_stack s /\
  warned s' = warned s.
Proof.
  unfold restore, call_clean_attrs. simpl.
  destruct (py_index (_action_stack s) idx); simpl; [ | repeat split ].
  destruct (cls s); simpl; repeat split.
Qed.

Lemma history_ok_after_restore (s : obj) (idx : Z) :
  history_ok s = true ->
  (0 <= idx <= Z.of_nat (length (_action_stack s)) - 1)%Z ->
  history_ok (state_of (restore s idx)) = true.
Proof.
  intros Hs Hidx. apply history_ok_spec. apply history_ok_spec in Hs.
  rewrite restore_action_stack, restore_cursor. tauto.
Qed.
End MoreNavigation.

(** X8: [rollforward] by more steps than there are entries after the cursor
    puts the cursor on the last entry and installs its array and mask,
    without an [IndexError]: it returns on a [FundamentalMatrix] and raises
    the [AttributeError] of the missing [_clean_attrs] on a [Homography]. *)
Theorem rollforward_clamps_to_last_entry
    {A : Type} (s : TransformationMatrix A) (n : Z) :
  history_ok s = true ->
  (Z.of_nat (length (_action_stack s)) - 1 - _current_action_stack s < n)%Z ->
  let last := (Z.of_nat (length (_action_stack s)) - 1)%Z in
  let s' := state_of (rollforward s n) in
  exists state,
    nth_error (_action_stack s) (length (_action_stack s) - 1) = Some state /\
    _current_action_stack s' = last /\
    self_arr s' = arr state /\ mask s' = pkg_mask state /\
    _action_stack s' = _action_stack s /\
    match rollforward s n with
    | Return _ => cls s = FundamentalMatrix
    | Raise e _ => cls s = Homography /\ e = AttributeError
    end.
Proof.
  intros Hs Hn last s'.
  pose proof Hs as Hinv. apply history_ok_spec in Hinv. destruct Hinv as [Hlen Hcur].
  assert (Hn0 : (0 <= n)%Z) by lia.
  destruct (rollforward_index s Hs Hn0) as [Hr [_ _]].
  replace (Z.min (Z.of_nat (length (_action_stack s)) - 1)
             (_current_action_stack s + n)) with last in Hr by (unfold last; lia).
  destruct (@py_index_in_range _ (_action_stack s) last) as [state [Hp Hnth]];
    [ unfold last; lia | ].
  exists state.
  replace (Z.to_nat last) with (length (_action_stack s) - 1)%nat in Hnth
    by (unfold last; lia).
  split; [ exact Hnth | ].
  subst s'. rewrite Hr.
  destruct (restore_installs s last Hp) as [H1 [H2 [H3 [H4 _]]]].
  repeat (split; [ assumption | ]).
  rewrite (restore_on_entry _ _ Hp). destruct (cls s); auto.
Qed.

Lemma rollforward_clamps_witness :
  let s := state_of (rollback Demo.refined 1) in
  history_ok s = true /\
  exists state,
    nth_error (_action_stack s) (length (_action_stack s) - 1) = Some state /\
    _current_action_stack (state_of (rollforward s 7)) = 1%Z /\
    self_arr (state_of (rollforward s 7)) = arr state /\
    mask (state_of (rollforward s 7)) = pkg_mask state /\
    _action_stack (state_of (rollforward s 7)) = _action_stack s /\
    match rollforward s 7 with
    | Return _ => cls s = FundamentalMatrix
    | Raise e _ => cls s = Homography /\ e = AttributeError
    end.
Proof.
  intros s. split; [ reflexivity | ].
  apply (@rollforward_clamps_to_last_entry float s 7);
    [ reflexivity | vm_compute; reflexivity ].
Defined.

(** X9: steps add up.  With the history in order and counts [a, b >= 0],
    [rollback(a)] followed by [rollback(b)] leaves the cursor, the array,
    the mask and the history that [rollback(a + b)] leaves, and so do two
    calls of [rollforward] against one. *)
Theorem navigation_steps_add_up
    {A : Type} (s : TransformationMatrix A) (a b : Z) :
  history_ok s = true ->
  (0 <= a)%Z -> (0 <= b)%Z ->
  (let s2 := state_of (rollback (state_of (rollback s a)) b) in
   let s3 := state_of (rollback s (a + b)) in
   _current_action_stack s2 = _current_action_stack s3 /\
   self_arr s2 = self_arr s3 /\ mask s2 = mask s3 /\
   _action_stack s2 = _action_stack s3) /\
  (let s2 := state_of (rollforward (state_of (rollforward s a)) b) in
   let s3 := state_of (rollforward s (a + b)) in
   _current_action_stack s2 = _current_action_stack s3 /\
   self_arr s2 = self_arr s3 /\ mask s2 = mask s3 /\
   _action_stack s2 = _action_stack s3).
Proof.
  intros Hs Ha Hb.
  pose proof Hs as Hinv. apply history_ok_spec in Hinv. destruct Hinv as [Hlen Hcur].
  assert (Hab : (0 <= a + b)%Z) by lia.
  split.
  - destruct (rollback_index s Hs Ha) as [Ha1 [Ha2 _]].
    destruct (rollback_index s Hs Hab) as [Hc1 [_ [sc Hsc]]].
    assert (Hs1 : history_ok (state_of (rollback s a)) = true).
    { rewrite Ha1. apply history_ok_after_restore; [ exact Hs | lia ]. }
    destruct (rollback_index _ Hs1 Hb) as [Hb1 [_ [sb Hsb]]].
    simpl. rewrite Hb1, Hc1.
    assert (Hidx : Z.max 0 (_current_action_stack (state_of (rollback s a)) - b)
                   = Z.max 0 (_current_action_stack s - (a + b))).
    { rewrite Ha1, restore_cursor. lia. }
    assert (Hst : _action_stack (state_of (rollback s a)) = _action_stack s).
    { rewrite Ha1. apply restore_action_stack. }
    rewrite Hidx in *. rewrite Hst in Hsb.
    assert (sb = sc) by congruence. subst sb.
    rewrite <- Hst in Hsb.
    destruct (restore_installs _ _ Hsb) as [B1 [B2 [B3 [B4 _]]]].
    rewrite Hst in Hsb.
    destruct (restore_installs _ _ Hsc) as [C1 [C2 [C3 [C4 _]]]].
    simpl in *. rewrite B1, B2, B3, B4, C1, C2, C3, C4. auto.
  - destruct (rollforward_index s Hs Ha) as [Ha1 [Ha2 _]].
    destruct (rollforward_index s Hs Hab) as [Hc1 [_ [sc Hsc]]].
    assert (Hs1 : history_ok (state_of (rollforward s a)) = true).
    { rewrite Ha1. apply history_ok_after_restore; [ exact Hs | lia ]. }
    destruct (rollforward_index _ Hs1 Hb) as [Hb1 [_ [sb Hsb]]].
    simpl. rewrite Hb1, Hc1.
    assert (Hst : _action_stack (state_of (rollforward s a)) = _action_stack s).
    { rewrite Ha1. apply restore_action_stack. }
    assert (Hidx : Z.min (Z.of_nat (length (_action_stack (state_of (rollforward s a)))) - 1)
                     (_current_action_stack (state_of (rollforward s a)) + b)
                   = Z.min (Z.of_nat (length (_action_stack s)) - 1)
                       (_current_action_stack s + (a + b))).
    { rewrite Hst. rewrite Ha1, restore_cursor. lia. }
    rewrite Hidx in *.
    set (i := Z.min (Z.of_nat (length (_action_stack s)) - 1)
                (_current_action_stack s + (a + b))) in *.
    rewrite Hst in Hsb.
    assert (sb = sc) by congruence. subst sb.
    rewrite <- Hst in Hsb.
    destruct (restore_installs _ _ Hsb) as [B1 [B2 [B3 [B4 _]]]].
    rewrite Hst in Hsb.
    destruct (restore_installs _ _ Hsc) as [C1 [C2 [C3 [C4 _]]]].
    simpl in *. rewrite B1, B2, B3, B4, C1, C2, C3, C4. auto.
Qed.

Lemma navigation_steps_add_up_witness :
  let s := run Demo.E_sideways Demo.estimated (repeat (RefineMatches 1%float) 5) in
  history_ok s = true /\ (0 <= 2)%Z /\ (0 <= 1)%Z /\
  _current_action_stack (state_of (rollback (state_of (rollback s 2)) 1))
  = _current_action_stack (state_of (rollback s (2 + 1))).
Proof.
  intros s.
  split; [ reflexivity | split; [ lia | split; [ lia | ] ] ].
  apply (@navigation_steps_add_up float s 2 1); [ reflexivity | lia | lia ].
Defined.

(** X10: [rollback] and [rollforward] restore the array and the mask only.
    Whatever the step count and the outcome, the correspondences [x1] and
    [x2], the index, the observers and the entries of the history are left
    as they were. *)
Theorem navigation_keeps_correspondences_and_history
    {A : Type} (s : TransformationMatrix A) (n : Z) :
  (let s' := state_of (rollback s n) in
   x1 s' = x1 s /\ x2 s' = x2 s /\ index s' = index s /\
   _observers s' = _observers s /\ _action_stack s' = _action_stack s) /\
  (let s' := state_of (rollforward s n) in
   x1 s' = x1 s /\ x2 s' = x2 s /\ index s' = index s /\
   _observers s' = _observers s /\ _action_stack s' = _action_stack s).
Proof.
  split; simpl.
  - unfold rollback. pose proof (restore_frame s
      (if (_current_action_stack s - n <? 0)%Z then 0%Z
       else (_current_action_stack s - n)%Z)) as H. simpl in H. tauto.
  - unfold rollforward. pose proof (restore_frame s
      (if (_current_action_stack s + n >? Z.of_nat (length (_action_stack s)) - 1)%Z
       then (Z.of_nat (length (_action_stack s)) - 1)%Z
       else (_current_action_stack s + n)%Z)) as H. simpl in H. tauto.
Qed.

(** ** Observers *)

Section Observers.
Context {A : Type} {NA : Num A}.
Variable E : externals A.
Local Abbreviation obj := (TransformationMatrix A).

Lemma existsb_eqb_In (f : nat) (l : list nat) :
  existsb (Nat.eqb f) l = true <-> In f l.
Proof.
  rewrite existsb_exists. split.
  - intros [x [Hx Heq]]. apply Nat.eqb_eq in Heq. now subst.
  - intros H. exists f. split; [ exact H | apply Nat.eqb_refl ].
Qed.

Lemma subscribe_NoDup (s : obj) (f : nat) :
  NoDup (_observers s) -> NoDup (_observers (subscribe s f)).
Proof.
  intros Hnd. unfold subscribe.
  destruct (existsb (Nat.eqb f) (_observers s)) eqn:Hex; simpl; [ exact Hnd | ].
  apply NoDup_app; [ exact Hnd | repeat constructor; simpl; tauto | ].
  intros x Hx [<- | []].
  apply existsb_eqb_In in Hx. congruence.
Qed.

Lemma refine_matches_observers (s : obj) (t : A) :
  _observers (state_of (FundamentalMatrix.refine_matches E s t)) = _observers s.
Proof.
  unfold FundamentalMatrix.refine_matches.
  destruct (mask s); [ | reflexivity ].
  now destruct (FundamentalMatrix.compute_error E s (x1 s) (x2 s)).
Qed.

Lemma invoke_observers (s : obj) (c : call A) :
  _observers (state_of (invoke E s c)) =
  match c with
  | Subscribe f => _observers (subscribe s f)
  | _ => _observers s
  end.
Proof.
  destruct c as [kp1 kp2 method t c | t | n | n | func | ]; simpl.
  - destruct (cls s);
      [ now destruct (fm_compute_frame E s kp1 kp2 method t c) as [_ [_ [H _]]]
      | now destruct (h_compute_frame E s kp1 kp2 method t) as [_ [_ [H _]]] ].
  - destruct (cls s); [ apply refine_matches_observers | reflexivity ].
  - unfold rollback. now destruct (restore_frame s
      (if (_current_action_stack s - n <? 0)%Z then 0%Z
       else (_current_action_stack s - n)%Z)) as [_ [_ [_ [H _]]]].
  - unfold rollforward. now destruct (restore_frame s
      (if (_current_action_stack s + n >? Z.of_nat (length (_action_stack s)) - 1)%Z
       then (Z.of_nat (length (_action_stack s)) - 1)%Z
       else (_current_action_stack s + n)%Z)) as [_ [_ [_ [H _]]]].
  - reflexivity.
  - unfold condition.
    destruct (svd E (self_arr s)) as [[u [[d0 d1] d2]] vt].
    destruct (_condition s) as [c | ]; [ destruct (num_truthy c) | ]; reflexivity.
Qed.

Lemma run_observers_NoDup (cs : list (call A)) (s : obj) :
  NoDup (_observers s) -> NoDup (_observers (run E s cs)).
Proof.
  revert s. induction cs as [ | c cs IH]; intros s Hnd; simpl; [ exact Hnd | ].
  apply IH. rewrite invoke_observers.
  destruct c; try exact Hnd. now apply subscribe_NoDup.
Qed.
End Observers.

(** X11: the observers form a set.  A subscribed observer is among the
    observers, subscribing one that is there changes nothing, and no
    sequence of calls makes an observer appear twice: an object that starts
    without a duplicate (as the constructor leaves it) never has one. *)
Theorem observers_form_a_set
    {A : Type} {NA : Num A} (E : externals A)
    (s : TransformationMatrix A) (cs : list (call A)) (f : nat) :
  NoDup (_observers s) ->
  NoDup (_observers (run E s cs)) /\
  In f (_observers (subscribe s f)) /\
  subscribe (subscribe s f) f = subscribe s f /\
  (In f (_observers s) -> subscribe s f = s).
Proof.
  intros Hnd. split; [ now apply run_observers_NoDup | ].
  assert (Hin : In f (_observers (subscribe s f))).
  { unfold subscribe.
    destruct (existsb (Nat.eqb f) (_observers s)) eqn:Hex; simpl.
    - now apply existsb_eqb_In.
    - apply in_or_app. right. now left. }
  split; [ exact Hin | ]. split.
  - unfold subscribe at 1.
    apply existsb_eqb_In in Hin. now rewrite Hin.
  - intros H. unfold subscribe. apply existsb_eqb_In in H. now rewrite H.
Qed.

Lemma observers_form_a_set_witness :
  let s := new FundamentalMatrix Demo.zeros Demo.index8 in
  let cs := [Subscribe 3; Subscribe 5; Subscribe 3;
             Compute Demo.kp1 Demo.kp2 "ransac" 2%float Demo.confidence;
             RefineMatches 1%float; Subscribe 5] in
  NoDup (_observers s) /\
  NoDup (_observers (run Demo.E_sideways s cs)).
Proof.
  intros s cs. split; [ constructor | ].
  apply (@observers_form_a_set float _ Demo.E_sideways s cs 0%nat).
  constructor.
Defined.

(** X12: a call notifies every observer once when it is a [refine_matches],
    a [rollback] or a [rollforward] that returns, and nobody otherwise: a
    call that raises, a [compute], a [subscribe] and a read of [condition]
    add nothing to the log of notifications. *)
Theorem committed_mutations_notify_once
    {A : Type} {NA : Num A} (E : externals A)
    (s : TransformationMatrix A) (c : call A) :
  match invoke E s c with
  | Return s' =>
      notified s' =
      notified s ++
      match c with
      | RefineMatches _ | Rollback _ | Rollforward _ => _observers s
      | _ => []
      end
  | Raise _ s' => notified s' = notified s
  end.
Proof.
  assert (Hrestore : forall idx,
             match restore s idx with
             | Return s' => notified s' = notified s ++ _observers s
             | Raise _ s' => notified s' = notified s
             end).
  { intros idx. unfold restore, call_clean_attrs. simpl.
    destruct (py_index (_action_stack s) idx); simpl; [ | reflexivity ].
    destruct (cls s); reflexivity. }
  destruct c as [kp1 kp2 method t c | t | n | n | func | ]; simpl.
  - destruct (cls s).
    + destruct (fm_compute_frame E s kp1 kp2 method t c) as [_ [_ [_ H]]].
      simpl in H.
      destruct (FundamentalMatrix.compute E s kp1 kp2 method t c); simpl in H;
        rewrite ?app_nil_r; exact H.
    + destruct (h_compute_frame E s kp1 kp2 method t) as [_ [_ [_ H]]].
      simpl in H.
      destruct (Homography.compute E s kp1 kp2 method t); simpl in H;
        rewrite ?app_nil_r; exact H.
  - destruct (cls s); [ | reflexivity ].
    unfold FundamentalMatrix.refine_matches.
    destruct (mask s); [ | reflexivity ].
    now destruct (FundamentalMatrix.compute_error E s (x1 s) (x2 s)).
  - apply Hrestore.
  - apply Hrestore.
  - rewrite app_nil_r. unfold subscribe. now destruct (existsb _ _).
  - rewrite app_nil_r. unfold condition.
    destruct (svd E (self_arr s)) as [[u [[d0 d1] d2]] vt].
    destruct (_condition s) as [c | ]; [ destruct (num_truthy c) | ]; reflexivity.
Qed.

(** ** The cached condition *)

(** X13: reading [condition] touches nothing but the cache, and a second
    read right after the first gives the same value and leaves the same
    object. *)
Theorem condition_read_is_idempotent
    {A : Type} {NA : Num A} (E : externals A) (s : TransformationMatrix A) :
  condition E (snd (condition E s)) = condition E s /\
  snd (condition E s) = set_condition s (_condition (snd (condition E s))).
Proof.
  unfold condition.
  destruct (svd E (self_arr s)) as [[u [[d0 d1] d2]] vt] eqn:Hsvd.
  destruct (_condition s) as [c | ] eqn:Hc.
  - destruct (num_truthy c) eqn:Ht; simpl.
    + rewrite Hsvd, Hc, Ht. split; [ reflexivity | ].
      destruct s; simpl in *. now subst.
    + rewrite Hsvd. destruct (num_truthy (d0 / d1)%num); split; reflexivity.
  - simpl. rewrite Hsvd. destruct (num_truthy (d0 / d1)%num); split; reflexivity.
Qed.

(** X14: after a [refine_matches], a [rollback] or a [rollforward] that
    returns, the next read of [condition] is computed afresh from the array
    the object then holds: it is the ratio of the first two singular values
    of that array, and it is cached. *)
Theorem condition_is_recomputed_after_a_commit
    {A : Type} {NA : Num A} (E : externals A)
    (s s' : TransformationMatrix A) (c : call A) :
  match c with
  | RefineMatches _ | Rollback _ | Rollforward _ => True
  | _ => False
  end ->
  invoke E s c = Return s' ->
  let '(_, (d0, d1, _), _) := svd E (self_arr s') in
  condition E s' = ((d0 / d1)%num, set_condition s' (Some (d0 / d1)%num)).
Proof.
  intros Hc Hret. apply condition_computed.
  destruct c as [kp1 kp2 method t c | t | n | n | func | ];
    try contradiction; simpl in Hret.
  - destruct (cls s); [ | discriminate ].
    now apply (refine_matches_resets_condition E _ _ Hret).
  - now apply (restore_resets_condition _ _ Hret).
  - now apply (restore_resets_condition _ _ Hret).
Qed.

Lemma condition_is_recomputed_witness :
  let E := Demo.externals_returning
             (Single (diag 9 3 0)%float) None (Some Demo.all8) in
  let s := snd (condition E (new FundamentalMatrix (diag 4 2 1)%float Demo.index8)) in
  exists s',
    invoke E s (Rollback 1) = Return s' /\
    _condition s = Some 2%float /\
    (let '(_, (d0, d1, _), _) := svd E (self_arr s') in
     condition E s' = ((d0 / d1)%num, set_condition s' (Some (d0 / d1)%num))).
Proof.
  intros E s. eexists. split; [ reflexivity | ]. split; [ reflexivity | ].
  apply (@condition_is_recomputed_after_a_commit float _ E s _ (Rollback 1));
    [ exact I | reflexivity ].
Defined.

(** ** Estimating a homography *)

(** X15: with one of the methods 'ransac', 'lmeds' and 'normal',
    [Homography.compute] returns and installs what the estimator returned:
    the two point arrays, the mask ([None] stays [None]) and the matrix.
    When the estimator returned no matrix, every cell of the array becomes
    NaN.  The history is as it was. *)
Theorem homography_compute_installs_estimate
    {A : Type} {NA : Num A} (E : externals A)
    (s : TransformationMatrix A) (kp1 kp2 : points A)
    (method : string) (flag : h_method) (t : A)
    (H : option (mat3 A)) (m : option (list bool)) :
  Homography.method_flag method = Some flag ->
  findHomography E kp1 kp2 flag t = (H, m) ->
  let o := Homography.compute E s kp1 kp2 method t in
  returns o = true /\
  x1 (state_of o) = Some kp1 /\ x2 (state_of o) = Some kp2 /\
  mask (state_of o) = m /\
  _action_stack (state_of o) = _action_stack s /\
  _current_action_stack (state_of o) = _current_action_stack s /\
  self_arr (state_of o) = match H with
                          | Some M => M
                          | None => nan_matrix
                          end.
Proof.
  intros Hflag Hest. unfold Homography.compute. rewrite Hflag. simpl.
  rewrite Hest. destruct H as [M | ]; simpl; repeat split.
Qed.

Lemma homography_compute_installs_witness :
  let E := Demo.externals_returning NoEstimate (Some Demo.F_sideways) None in
  let o := Homography.compute E (new Homography Demo.eye Demo.index8)
             Demo.kp1 Demo.kp2 "lmeds" 2%float in
  returns o = true /\
  x1 (state_of o) = Some Demo.kp1 /\ x2 (state_of o) = Some Demo.kp2 /\
  mask (state_of o) = None /\
  _action_stack (state_of o) = _action_stack (new Homography Demo.eye Demo.index8) /\
  _current_action_stack (state_of o) = 0%Z /\
  self_arr (state_of o) = Demo.F_sideways.
Proof.
  intros E o.
  apply (@homography_compute_installs_estimate float _ E
           (new Homography Demo.eye Demo.index8) Demo.kp1 Demo.kp2
           "lmeds"%string H_LMEDS 2%float (Some Demo.F_sideways) None);
    reflexivity.
Defined.

(** The estimator finds no homography: the call returns, the mask is
    [None] and the array is NaN in every cell. *)
Example homography_compute_stores_nan_for_none :
  let E := Demo.externals_returning NoEstimate None None in
  let o := Homography.compute E (new Homography Demo.eye Demo.index8)
             Demo.kp1 Demo.kp2 "ransac" 2%float in
  let '((a, b, c), (d, e, f), (g, h, i)) := self_arr (state_of o) in
  returns o = true /\ mask (state_of o) = None /\
  forallb is_nan [a; b; c; d; e; f; g; h; i] = true.
Proof. vm_compute. repeat split. Qed.

(** ** Rows kept by a mask *)

Lemma select_length {T} (m : list bool) (rows : list T) :
  length m = length rows ->
  length (select m rows) = length (filter (fun b => b) m).
Proof.
  revert rows. induction m as [ | b m IH]; intros [ | r rows] Hlen;
    simpl in *; try discriminate; [ reflexivity | ].
  destruct b; simpl; rewrite IH by lia; reflexivity.
Qed.

Lemma filter_true_length (m : list bool) :
  (length (filter (fun b => b) m) <= length m)%nat /\
  (In false m -> (length (filter (fun b => b) m) < length m)%nat).
Proof.
  induction m as [ | b m [IH1 IH2]]; simpl; [ split; [ lia | tauto ] | ].
  destruct b; simpl.
  - split; [ lia | ].
    intros [H | H]; [ discriminate | ]. specialize (IH2 H). lia.
  - split; intros; lia.
Qed.

Lemma select_map {T U} (f : T -> U) (m : list bool) (rows : list T) :
  select m (map f rows) = map f (select m rows).
Proof.
  revert rows. induction m as [ | b m IH]; intros [ | r rows]; simpl;
    try reflexivity.
  destruct b; simpl; now rewrite IH.
Qed.

Lemma select_combine {T U} (m : list bool) (a : list T) (b : list U) :
  select m (combine a b) = combine (select m a) (select m b).
Proof.
  revert a b. induction m as [ | x m IH]; intros [ | r a] [ | r' b]; simpl;
    try reflexivity.
  - destruct x; simpl; [ reflexivity | now destruct (select m a) ].
  - destruct x; simpl; now rewrite IH.
Qed.

Lemma homogeneous_length {A} {NA : Num A} (p : points A) :
  length (Homography.homogeneous p) = n_rows p.
Proof.
  destruct p; simpl; [ unfold Homography.make_homogeneous; apply length_map | reflexivity ].
Qed.

Lemma select_points_rows {A} (m : list bool) (p : points A) :
  length m = n_rows p ->
  n_rows (select_points m p) = length (filter (fun b => b) m).
Proof. destruct p; simpl; apply select_length. Qed.

(** X16: the frame that [Homography.compute_error] returns has one row for
    each label of the index and for each row of [a] that the mask keeps.
    The call therefore returns only when the mask keeps as many rows of
    [a] as the index has labels; with [a], the mask and the index of one
    length, a single rejected row makes it raise instead. *)
Theorem homography_error_frame_fits_index
    {A : Type} {NA : Num A} (s : TransformationMatrix A)
    (a b : option (points A)) (m : option (list bool)) (df : error_frame A) :
  Homography.compute_error s a b m = Val df ->
  let mask := match m with
              | Some m' => m'
              | None => repeat true (length (index s))
              end in
  length (frame_rows df) = length (index s) /\
  frame_index df = index s /\
  exists rows,
    a = Some rows /\
    n_rows (select_points mask rows) = length (index s) /\
    (length mask = n_rows rows -> n_rows rows = length (index s) ->
     ~ In false mask).
Proof.
  intros Hdf mask. revert Hdf.
  unfold Homography.compute_error, Homography.error_table, mask_rows.
  fold mask.
  destruct a as [a | ]; [ | discriminate ].
  destruct (n_rows a <=? length mask)%nat; [ | discriminate ].
  destruct b as [b | ]; [ | discriminate ].
  destruct (n_rows b <=? length mask)%nat; [ | discriminate ].
  match goal with |- context [broadcast_rows ?l ?n] =>
    destruct (broadcast_rows l n) as [b' | ] eqn:Hb; [ | discriminate ] end.
  apply broadcast_rows_length in Hb.
  match goal with |- context [(length ?d =? _)%nat] =>
    set (data := d); destruct (Nat.eqb_spec (length data) (length (index s)))
      as [Hd | ]; [ | discriminate ] end.
  intros [= <-]. simpl. split; [ exact Hd | ]. split; [ reflexivity | ].
  assert (Hk : length data = n_rows (select_points mask a)).
  { subst data.
    repeat (rewrite length_map in * || rewrite length_combine
            || rewrite homogeneous_length in * ).
    lia. }
  exists a. split; [ reflexivity | ]. split; [ lia | ].
  intros Hlen Hrows Hin.
  rewrite select_points_rows in Hk by exact Hlen.
  apply filter_true_length in Hin. lia.
Qed.

Lemma homography_error_frame_witness :
  let s := new Homography Demo.eye [0; 1]%nat in
  let a := Some (Pts2 [(0, 0); (1, 1)]%float) in
  let b := Some (Pts2 [(1, 0); (1, 3)]%float) in
  exists df,
    Homography.compute_error s a b (Some [true; true]) = Val df /\
    length (frame_rows df) = length (index s).
Proof.
  intros s a b. eexists. split.
  - vm_compute. reflexivity.
  - eapply (@homography_error_frame_fits_index float _ s a b (Some [true; true])).
    vm_compute. reflexivity.
Defined.

(** ** More on the error of a homography, in exact arithmetic *)

Section MoreRealErrors.
Local Open Scope R_scope.

Lemma combine_map_same {T U V : Type} (f : T -> U) (g : T -> V) (l : list T) :
  combine (map f l) (map g l) = map (fun r => (f r, g r)) l.
Proof. induction l as [ | r l IH]; simpl; [ reflexivity | now rewrite IH ]. Qed.

Lemma np_sum_ext {T : Type} (F G : T -> R) (l : list T) :
  (forall r, F r = G r) -> np_sum (map F l) = np_sum (map G l).
Proof.
  intros H. rewrite !np_sum_exact.
  induction l as [ | r l IH]; simpl; [ reflexivity | ].
  now rewrite H, IH.
Qed.

Lemma np_sum_nonneg {T : Type} (q : T -> R) (l : list T) :
  (forall r, 0 <= q r) -> 0 <= np_sum (map q l).
Proof.
  intros H. rewrite np_sum_exact.
  induction l as [ | r l IH]; simpl; [ lra | ].
  specialize (H r). lra.
Qed.

Lemma np_sum_scaled_roots {T : Type} (q : T -> R) (c : R) (l : list T) :
  (forall r, 0 <= q r) ->
  np_sum (map (fun r => (sqrt (q r) / c) * (sqrt (q r) / c)) l)
  = np_sum (map q l) / (c * c).
Proof.
  intros H. rewrite !np_sum_exact.
  induction l as [ | r l IH]; simpl.
  - unfold Rdiv. ring.
  - rewrite IH. unfold Rdiv. rewrite Rinv_mult.
    replace (sqrt (q r) * / c * (sqrt (q r) * / c))
      with (sqrt (q r) * sqrt (q r) * (/ c * / c)) by ring.
    rewrite sqrt_sqrt by apply H. ring.
Qed.

(** The squared error contributions of a table add up to its number of
    rows, when the total is not zero. *)
Lemma contributions_add_up {T : Type} (q : T -> R) (l : list T) :
  (forall r, 0 <= q r) ->
  let total := sqrt (np_mean (map q l)) in
  total <> 0 ->
  np_sum (map (fun r => (sqrt (q r) / total) * (sqrt (q r) / total)) l)
  = INR (length l).
Proof.
  intros Hq total Hne.
  rewrite np_sum_scaled_roots by exact Hq.
  assert (Hmean : 0 <= np_mean (map q l)).
  { unfold np_mean. simpl. unfold Rdiv. apply Rmult_le_pos.
    - now apply np_sum_nonneg.
    - rewrite length_map. destruct (length l) as [ | k].
      + simpl. rewrite Rinv_0. lra.
      + left. apply Rinv_0_lt_compat, lt_0_INR. lia. }
  unfold total. rewrite sqrt_sqrt by exact Hmean.
  assert (Hnz : np_mean (map q l) <> 0).
  { intros H0. apply Hne. unfold total. rewrite H0. apply sqrt_0. }
  unfold np_mean in *. simpl in *. rewrite length_map in *.
  assert (Hk : INR (length l) <> 0).
  { intros H0. apply Hnz. rewrite H0. unfold Rdiv. rewrite Rinv_0. ring. }
  assert (Hs : np_sum (map q l) <> 0).
  { intros H0. apply Hnz. rewrite H0. unfold Rdiv. ring. }
  field. split; assumption.
Qed.
End MoreRealErrors.





(** ** The epipolar error *)

(** The absolute value of a binary64 float is never below zero (a NaN is
    not below anything). *)
Lemma float_abs_not_negative (x : float) :
  (PrimFloat.abs x <? 0)%float = false.
Proof.
  rewrite ltb_spec, abs_spec.
  change (Prim2SF 0%float) with (S754_zero false).
  now destruct (Prim2SF x) as [sx | sx | | sx mx ex].
Qed.

Lemma select_length_same {T U} (m : list bool) (a : list T) (b : list U) :
  length a = length b -> length (select m a) = length (select m b).
Proof.
  revert a b. induction m as [ | x m IH]; intros [ | r a] [ | r' b] Hlen;
    simpl in *; try discriminate; try reflexivity.
  destruct x; simpl; rewrite (IH a b) by lia; reflexivity.
Qed.

(** X19: [FundamentalMatrix.compute_error] returns one error for each row of
    its second argument, and on binary64 floats no error is below zero,
    whatever the matrix and the normalisation of the lines. *)
Theorem epipolar_errors_are_not_negative
    (E : externals float) (s : TransformationMatrix float)
    (x x' : option (points float)) (errors : list float) :
  FundamentalMatrix.compute_error E s x x' = Val errors ->
  option_map n_rows x' = Some (length errors) /\
  Forall (fun e => (e <? 0)%float = false) errors.
Proof.
  unfold FundamentalMatrix.compute_error.
  destruct x as [[r | r] | ]; try discriminate.
  destruct x' as [[r' | r'] | ]; try discriminate.
  destruct (broadcast_rows
              (normalize_vector E
                 (map (fun v => vec_mat v (transpose (self_arr s))) r))
              (length r')) as [l_norms | ] eqn:Hb; [ | discriminate ].
  intros [= <-]. split.
  - simpl.
    now rewrite length_map, length_combine, (broadcast_rows_length _ _ Hb),
      Nat.min_id.
  - apply Forall_forall. intros e He. apply in_map_iff in He.
    destruct He as [[l p] [<- _]]. apply float_abs_not_negative.
Qed.

Lemma epipolar_errors_witness :
  exists errors,
    FundamentalMatrix.compute_error Demo.E_sideways Demo.estimated
      (x1 Demo.estimated) (x2 Demo.estimated) = Val errors /\
    option_map n_rows (x2 Demo.estimated) = Some (length errors) /\
    Forall (fun e => (e <? 0)%float = false) errors.
Proof.
  eexists. split; [ vm_compute; reflexivity | ].
  apply (@epipolar_errors_are_not_negative Demo.E_sideways Demo.estimated
           (x1 Demo.estimated) (x2 Demo.estimated)).
  vm_compute. reflexivity.
Defined.

(** X20: when the lines are normalised row by row, the property [error] of
    a [FundamentalMatrix] is [compute_error] over all correspondences with
    the rows of the outliers left out: the error of an inlier does not
    depend on which other matches are masked. *)
Theorem fm_error_is_the_error_of_the_inliers
    {A : Type} {NA : Num A} (E : externals A) (s : TransformationMatrix A)
    (normalize : vec3 A -> vec3 A) (r1 r2 : list (vec3 A)) (m : list bool) :
  (forall l, normalize_vector E l = map normalize l) ->
  x1 s = Some (Pts3 r1) -> x2 s = Some (Pts3 r2) -> mask s = Some m ->
  length r1 = length r2 ->
  exists errors,
    FundamentalMatrix.compute_error E s (x1 s) (x2 s) = Val errors /\
    FundamentalMatrix.error E s = Val (select m errors).
Proof.
  intros Hn Hx1 Hx2 Hm Hlen.
  unfold FundamentalMatrix.error, FundamentalMatrix.compute_error.
  rewrite Hx1, Hx2, Hm. simpl. rewrite !Hn.
  replace (length r2)
    with (length (map normalize
                    (map (fun r => vec_mat r (transpose (self_arr s))) r1)))
    by now rewrite !length_map.
  replace (length (select m r2))
    with (length (map normalize
                    (map (fun r => vec_mat r (transpose (self_arr s)))
                       (select m r1))))
    by (rewrite !length_map; now apply select_length_same).
  rewrite !broadcast_rows_same.
  eexists. split; [ reflexivity | ].
  now rewrite select_map, select_combine, !select_map.
Qed.

Lemma fm_error_of_the_inliers_witness :
  exists errors,
    FundamentalMatrix.compute_error Demo.E_sideways Demo.refined
      (x1 Demo.refined) (x2 Demo.refined) = Val errors /\
    FundamentalMatrix.error Demo.E_sideways Demo.refined
      = Val (select [true; true; true; true; true; true; false; false] errors).
Proof.
  apply (@fm_error_is_the_error_of_the_inliers float _ Demo.E_sideways
           Demo.refined Demo.normalize_row
           [(0, 0, 1); (1, 0, 1); (2, 1, 1); (3, 1, 1);
            (4, 2, 1); (5, 2, 1); (6, 3, 1); (7, 3, 1)]%float
           [(1, 0, 1); (2, 0, 1); (3, 1, 1); (4, 1, 1);
            (5, 2, 1); (6, 2, 1); (7, 6, 1); (8, 8, 1)]%float
           [true; true; true; true; true; true; false; false]);
    reflexivity.
Defined.

(** ** The singularity constraint *)

(** X21: over the real numbers, once [_enforce_singularity_constraint] has
    replaced the array (the rank was not 2), the array has the determinant
    zero, whatever factors and singular values the SVD returned: zeroing
    the third singular value is what makes it singular. *)
Theorem enforced_array_is_singular
    (E : externals R) (s : TransformationMatrix R) :
  rank E s <> 2%nat ->
  determinant (FundamentalMatrix._enforce_singularity_constraint E s) = 0%R.
Proof.
  intros Hrank. unfold FundamentalMatrix._enforce_singularity_constraint.
  destruct (Nat.eqb_spec (rank E s) 2) as [H2 | _]; [ contradiction | ].
  destruct (svd E (self_arr s))
    as [[[[[[u00 u01] u02] [[u10 u11] u12]] [[u20 u21] u22]]
          [[d0 d1] d2]]
         [[[[v00 v01] v02] [[v10 v11] v12]] [[v20 v21] v22]]].
  unfold determinant. simpl. ring.
Qed.

Lemma enforced_array_is_singular_witness :
  let E := Externals
             (fun _ _ _ _ _ => (NoEstimate, None))
             (fun _ _ _ _ => (None, None))
             (fun M : mat3 R =>
                (diag 1%R 1%R 1%R, (3%R, 2%R, 1%R), diag 1%R 1%R 1%R))
             (fun _ => 3%nat)
             (fun l => l)
             (fun _ => Camera (diag 1%R 1%R 1%R) (0%R, 0%R, 0%R))
             (Camera (diag 1%R 1%R 1%R) (0%R, 0%R, 0%R))
             (fun p1 _ _ _ => p1) in
  let s := new FundamentalMatrix (diag 3%R 2%R 1%R) [0; 1]%nat in
  rank E s <> 2%nat /\
  determinant (FundamentalMatrix._enforce_singularity_constraint E s) = 0%R.
Proof.
  intros E s.
  assert (Hrank : rank E s <> 2%nat) by (simpl; discriminate).
  split; [ exact Hrank | ].
  exact (@enforced_array_is_singular E s Hrank).
Defined.

(** ** Arrays that do not fit the index *)

(** X22: when the estimator has answered with a mask and [kp1] has another
    number of rows than the index has labels, [FundamentalMatrix.compute]
    raises; the enforcement has then already run on the array, and neither
    the points nor the new mask are attached. *)
Theorem fm_compute_rejects_misfit_points
    {A : Type} {NA : Num A} (E : externals A)
    (s : TransformationMatrix A) (kp1 kp2 : points A)
    (method : string) (flag : fm_method) (t c : A)
    (F : estimate A) (m : list bool) :
  FundamentalMatrix.method_flag method = Some flag ->
  findFundamentalMat E kp1 kp2 flag t c = (F, Some m) ->
  n_rows kp1 <> length (index s) ->
  FundamentalMatrix.compute E s kp1 kp2 method t c
  = Raise ValueError (FundamentalMatrix._enforce_singularity_constraint E s) /\
  x1 (FundamentalMatrix._enforce_singularity_constraint E s) = x1 s /\
  x2 (FundamentalMatrix._enforce_singularity_constraint E s) = x2 s /\
  mask (FundamentalMatrix._enforce_singularity_constraint E s) = mask s.
Proof.
  intros Hflag Hest Hrows.
  assert (Hfr : index (FundamentalMatrix._enforce_singularity_constraint E s)
                = index s /\
                x1 (FundamentalMatrix._enforce_singularity_constraint E s) = x1 s /\
                x2 (FundamentalMatrix._enforce_singularity_constraint E s) = x2 s /\
                mask (FundamentalMatrix._enforce_singularity_constraint E s) = mask s).
  { unfold FundamentalMatrix._enforce_singularity_constraint.
    destruct (rank E s =? 2)%nat; [ tauto | ].
    destruct (svd E (self_arr s)) as [[u [[d0 d1] d2]] vt]. simpl. tauto. }
  destruct Hfr as [Hidx Hrest].
  split; [ | exact Hrest ].
  unfold FundamentalMatrix.compute. rewrite Hflag, Hest. simpl.
  rewrite Hidx. apply Nat.eqb_neq in Hrows. now rewrite Hrows.
Qed.

Lemma fm_compute_rejects_misfit_witness :
  let s := new FundamentalMatrix Demo.zeros [0; 1; 2]%nat in
  FundamentalMatrix.compute Demo.E_sideways s Demo.kp1 Demo.kp2
    "ransac" 2%float Demo.confidence
  = Raise ValueError
      (FundamentalMatrix._enforce_singularity_constraint Demo.E_sideways s).
Proof.
  intros s.
  apply (@fm_compute_rejects_misfit_points float _ Demo.E_sideways s
           Demo.kp1 Demo.kp2 "ransac"%string FM_RANSAC 2%float Demo.confidence
           (Single Demo.F_sideways) Demo.all8);
    [ reflexivity | reflexivity | simpl; discriminate ].
Defined.

(** ** What navigation can bring back *)

(** X23: with the history in order and a step count [n >= 0], what
    [rollback] and [rollforward] leave as the array and the mask is an
    entry of the history.  A state that was never pushed, such as the
    estimate of [compute] or the mask of the last refinement, cannot be
    reached by navigation. *)
Theorem navigation_installs_a_history_entry
    {A : Type} (s : TransformationMatrix A) (n : Z) :
  history_ok s = true ->
  (0 <= n)%Z ->
  (let s' := state_of (rollback s n) in
   In (StatePackage (self_arr s') (mask s')) (_action_stack s)) /\
  (let s' := state_of (rollforward s n) in
   In (StatePackage (self_arr s') (mask s')) (_action_stack s)).
Proof.
  intros Hs Hn.
  assert (Hin : forall idx state,
             py_index (_action_stack s) idx = Some state ->
             In (StatePackage (self_arr (state_of (restore s idx)))
                   (mask (state_of (restore s idx)))) (_action_stack s)).
  { intros idx state Hidx.
    destruct (restore_installs s idx Hidx) as [H1 [H2 _]].
    rewrite H1, H2.
    replace (StatePackage (arr state) (pkg_mask state)) with state
      by now destruct state.
    unfold py_index in Hidx.
    destruct ((0 <=? idx)%Z && (idx <? Z.of_nat (length (_action_stack s)))%Z);
      [ now apply nth_error_In in Hidx | ].
    destruct ((- Z.of_nat (length (_action_stack s)) <=? idx)%Z && (idx <? 0)%Z);
      [ now apply nth_error_In in Hidx | discriminate ]. }
  split; simpl.
  - destruct (rollback_index s Hs Hn) as [Hr [_ [state Hstate]]].
    rewrite Hr. now apply Hin with state.
  - destruct (rollforward_index s Hs Hn) as [Hr [_ [state Hstate]]].
    rewrite Hr. now apply Hin with state.
Qed.

Lemma navigation_installs_witness :
  let s := Demo.refined in
  history_ok s = true /\ (0 <= 1)%Z /\
  In (StatePackage (self_arr (state_of (rollback s 1)))
        (mask (state_of (rollback s 1)))) (_action_stack s).
Proof.
  intros s.
  split; [ reflexivity | split; [ lia | ] ].
  apply (@navigation_installs_a_history_entry float s 1); [ reflexivity | lia ].
Defined.
